(** * AtomAI training / inference orchestration: a shallow embedding

    The development follows three source files:
    - [atomai/atomnet.py]   : [net_train] (batch normalisation of the inputs,
      training loop, checkpoints) and [net_predict] (inference tiling);
    - [atomai/models/dklgp/dklgpr.py] : [dklGPR.decode];
    - [atomai/models/segmentor.py] is the newer front end of the same trainer
      and is not needed by the properties below.

    Python exceptions are values of [exn]; fallible code lives in the
    [result] monad.  Python floats are IEEE 754 binary64 values, modelled by
    the standard library's [spec_float] with its comparison [SFltb]. *)

From Stdlib Require Import ZArith Ascii String List Bool Lia SpecFloat.
From stdpp Require Import base options decidable numbers list gmap sets strings.

Local Open Scope nat_scope.

(** ** Exceptions and the error monad *)

Inductive exn : Type :=
| AssertionError (msg : string)
| NotImplementedError (msg : string)
| ValueError (msg : string)
| NameError (name : string)
| AttributeError (name : string)
| KeyError
| IndexError
| ZeroDivisionError.

Inductive result (A : Type) : Type :=
| Ok (a : A)
| Raise (e : exn).
Arguments Ok {A} a.
Arguments Raise {A} e.

Global Instance result_bind : MBind result := λ A B k r,
  match r with
  | Ok a => k a
  | Raise e => Raise e
  end.

(** [assert cond, msg] *)
Definition py_assert (cond : bool) (msg : string) : result unit :=
  if cond then Ok tt else Raise (AssertionError msg).

Definition is_ok {A : Type} (r : result A) : bool :=
  match r with Ok _ => true | Raise _ => false end.

(** The messages of the three assertions of [net_train.__init__], and the
    names the specification gives to the failures. *)
Definition msg_format : string :=
  "Provide all training and test image/labels data in the same format".
Definition msg_classes : string :=
  "Confirm that all ground truth images has the same number of classes".
Definition msg_background : string :=
  "Confirm that you have a class corresponding to background".

Definition FormatMismatch : exn := AssertionError msg_format.
Definition InconsistentClasses : exn := AssertionError msg_classes.
Definition MissingBackgroundClass : exn := AssertionError msg_background.
Definition UnsupportedMode : exn :=
  NotImplementedError "Currently supports only models with shared embedding space".

(** ** Input containers

    The four data arguments are Python lists, dictionaries or numpy arrays
    (anything else is [PyOther], tagged with its type name).  A label sample
    is one mask, flattened to its pixel values. *)

Inductive pytype : Type :=
| TList
| TDict
| TNdarray
| TOther (name : string).

Global Instance pytype_eq_dec : EqDecision pytype.
Proof. solve_decision. Defined.

Inductive pydata (A : Type) : Type :=
| PyList (batches : list (list A))
| PyDict (batches : gmap nat (list A))
| NdArray (samples : list A)
| PyOther (name : string).
Arguments PyList {A} batches.
Arguments PyDict {A} batches.
Arguments NdArray {A} samples.
Arguments PyOther {A} name.

Definition type_of {A : Type} (d : pydata A) : pytype :=
  match d with
  | PyList _ => TList
  | PyDict _ => TDict
  | NdArray _ => TNdarray
  | PyOther n => TOther n
  end.

Definition label : Type := list Z.

(** After normalisation the trainer holds either a list or a dictionary of
    mini-batches. *)
Inductive batches (A : Type) : Type :=
| BList (l : list (list A))
| BDict (m : gmap nat (list A)).
Arguments BList {A} l.
Arguments BDict {A} m.

(** [len(d)] *)
Definition py_len {A : Type} (d : batches A) : nat :=
  match d with
  | BList l => length l
  | BDict m => size m
  end.

(** [d[k]] *)
Definition getitem {A : Type} (d : batches A) (k : nat) : result (list A) :=
  match d with
  | BList l => match l !! k with Some b => Ok b | None => Raise IndexError end
  | BDict m => match m !! k with Some b => Ok b | None => Raise KeyError end
  end.

(** [l[k]] on a Python list or numpy vector *)
Definition index {A : Type} (l : list A) (k : nat) : result A :=
  match l !! k with Some a => Ok a | None => Raise IndexError end.

(** ** numpy helpers *)

(** [len(np.unique(lab))]: the number of distinct values in a batch of masks *)
Definition n_unique (lab : list label) : nat :=
  size (list_to_set (concat lab) : gset Z).

(** Consecutive slices of [size] elements, [k] of them. *)
Fixpoint chunks {A : Type} (size k : nat) (ary : list A) : list (list A) :=
  match k with
  | 0 => []
  | S k' => take size ary :: chunks size k' (drop size ary)
  end.

(** [np.split(ary, sections)] with an integer number of sections *)
Definition np_split {A : Type} (ary : list A) (sections : nat)
  : result (list (list A)) :=
  if sections =? 0 then
    Raise (ValueError "number sections must be larger than 0.")
  else if negb (length ary mod sections =? 0) then
    Raise (ValueError "array split does not result in an equal division")
  else Ok (chunks (length ary / sections) sections ary).

(** ** The batch normaliser: [net_train.__init__], lines 80-107 *)

(** [set([len(np.unique(lab)) for lab in batches])] *)
Definition class_counts (batches : list (list label)) : gset nat :=
  list_to_set (n_unique <$> batches).

(** Lines 102-107: from the set of per-batch counts to the number of output
    channels. *)
Definition class_cardinality (num_classes : gset nat) : result nat :=
  _ ← py_assert (size num_classes =? 1) msg_classes;
  match elements num_classes with
  | [] => Raise KeyError
  | k :: _ =>
      _ ← py_assert (negb (k =? 1)) msg_background;
      Ok (if k =? 2 then k - 1 else k)
  end.

Record dataset (image : Type) : Type := Dataset {
  ds_images_all : batches image;
  ds_labels_all : batches label;
  ds_images_test_all : batches image;
  ds_labels_test_all : batches label;
  ds_num_classes : nat
}.
Arguments Dataset {image}.
Arguments ds_images_all {image}.
Arguments ds_labels_all {image}.
Arguments ds_images_test_all {image}.
Arguments ds_labels_test_all {image}.
Arguments ds_num_classes {image}.

Definition msg_data : string :=
  "Provide training and test data as python list (or dictionary)".

Definition normalize {image : Type}
    (images_all : pydata image) (labels_all : pydata label)
    (images_test_all : pydata image) (labels_test_all : pydata label)
    (batch_size : nat) : result (dataset image) :=
  _ ← py_assert
        (bool_decide (type_of images_all = type_of labels_all)
         && bool_decide (type_of labels_all = type_of images_test_all)
         && bool_decide (type_of images_test_all = type_of labels_test_all))
        msg_format;
  '(ia, la, ita, lta, num_classes) ←
    match images_all, labels_all, images_test_all, labels_test_all with
    | PyList imgs, PyList labs, PyList imgs_test, PyList labs_test =>
        Ok (BList imgs, BList labs, BList imgs_test, BList labs_test,
            class_counts labs)
    | PyDict imgs, PyDict labs, PyDict imgs_test, PyDict labs_test =>
        Ok (BDict imgs, BDict labs, BDict imgs_test, BDict labs_test,
            class_counts (snd <$> map_to_list labs))
    | NdArray imgs, NdArray labs, NdArray imgs_test, NdArray labs_test =>
        let n_train_batches := length labs / batch_size in
        let n_test_batches := length labs_test / batch_size in
        ia ← np_split imgs n_train_batches;
        la ← np_split labs n_train_batches;
        ita ← np_split imgs_test n_test_batches;
        lta ← np_split labs_test n_test_batches;
        Ok (BList ia, BList la, BList ita, BList lta, class_counts la)
    | _, _, _, _ => Raise (NotImplementedError msg_data)
    end;
  k ← class_cardinality num_classes;
  Ok (Dataset ia la ita lta k).

(** ** Python floats *)

Abbreviation float := spec_float.

(** binary64 arithmetic *)
Definition prec64 : Z := 53.
Definition emax64 : Z := 1024.
Definition float_add : float → float → float := SFadd prec64 emax64.
Definition float_div : float → float → float := SFdiv prec64 emax64.
Definition float_of_nat (n : nat) : float :=
  binary_normalize prec64 emax64 (Z.of_nat n) 0 false.

Definition is_nan (x : float) : bool :=
  match x with S754_nan => true | _ => false end.
Definition is_finite (x : float) : bool :=
  match x with S754_zero _ | S754_finite _ _ _ => true | _ => false end.

(** [min(xs)]: keeps the first element and replaces it by each later one
    that compares strictly smaller. *)
Definition min_step (cur y : float) : float := if SFltb y cur then y else cur.

Definition py_min (xs : list float) : result float :=
  match xs with
  | [] => Raise (ValueError "min() arg is an empty sequence")
  | x :: rest => Ok (foldl min_step x rest)
  end.

(** [xs[-1]] and [xs[:-1]] *)
Definition py_last {A : Type} (xs : list A) : result A :=
  match last xs with Some a => Ok a | None => Raise IndexError end.
Definition py_init {A : Type} (xs : list A) : list A :=
  take (length xs - 1) xs.

(** ** External collaborators

    The network architectures, the loss functions, the optimiser and the
    random number generator are outside the controllers.  [train_pass] is
    what [train_step] does to the network (forward, loss, backward,
    optimiser step) and [test_pass] what [test_step] computes. *)

Inductive criterion_kind : Type :=
| DiceLoss
| BCEWithLogitsLoss
| CrossEntropyLoss.

Inductive label_dtype : Type :=
| TorchFloat
| TorchLong.

Class Backend : Type := {
  image : Type;
  net : Type;
  rng : Type;
  dilUnet : nat → nat → bool → bool → bool → net;
  dilnet : nat → nat → bool → bool → net;
  train_pass :
    criterion_kind → net → list image → label_dtype * list label → net * float;
  test_pass :
    criterion_kind → net → list image → label_dtype * list label → float;
  rand_below : rng → nat → nat → list nat * rng
}.

(** ** The persistent and observable world of a training run *)

(** What a run shows: the [print] statements of lines 195-199 and 214-215
    and the call of [plot_losses] at line 217.  An entry holds the values
    the statement is given; lines 197, 199 and 215 round the losses with
    [np.around] before they are displayed, and this rounding is not
    modelled: statements about the console say which entries appear, not
    which digits they show. *)
Inductive output : Type :=
| EpochLine (epoch : nat) (train_loss test_loss : float)
| EvalLine (mean_loss : float)
| PlotLosses (train_loss test_loss : list float).

(** [best_epochs] is a history variable: the cycles at which the statement
    of lines 202-203 was executed, most recent first. *)
Record world `{Backend} : Type := World {
  disk : gmap string net;
  console : list output;
  best_epochs : list nat
}.
Arguments World {_} disk console best_epochs.

Definition ends_with_slash (s : string) : bool :=
  match last (String.list_ascii_of_string s) with
  | Some c => bool_decide (c = "/"%char)
  | None => true
  end.

(** [os.path.join(dir, name)] for a relative [name] *)
Definition path_join (dir name : string) : string :=
  if ends_with_slash dir then (dir ++ name)%string
  else (dir ++ "/" ++ name)%string.

Definition best_path (savedir : string) : string :=
  path_join savedir "model_test_weights_best.pt".
Definition final_path (savedir : string) : string :=
  path_join savedir "model_weights_final.pt".

Definition torch_save `{Backend} (state : net) (path : string) (w : world)
  : world :=
  World (<[path := state]> (disk w)) (console w) (best_epochs w).

Definition print `{Backend} (line : output) (w : world) : world :=
  World (disk w) (console w ++ [line]) (best_epochs w).

Definition note_best `{Backend} (e : nat) (w : world) : world :=
  World (disk w) (console w) (e :: best_epochs w).

(** ** The training controller [net_train] *)

Record net_train `{Backend} : Type := NetTrain {
  net_ : net;
  criterion : criterion_kind;
  batch_idx_train : list nat;
  batch_idx_test : list nat;
  images_all : batches image;
  labels_all : batches label;
  images_test_all : batches image;
  labels_test_all : batches label;
  num_classes : nat;
  batch_size : nat;
  training_cycles : nat;
  print_loss : nat;
  savedir : string;
  plot_training_history : bool;
  train_loss : list float;
  test_loss : list float
}.
Arguments NetTrain {_}.

Definition set_net `{Backend} (self : net_train) (n : net) : net_train :=
  NetTrain n (criterion self) (batch_idx_train self) (batch_idx_test self)
    (images_all self) (labels_all self) (images_test_all self)
    (labels_test_all self) (num_classes self) (batch_size self)
    (training_cycles self) (print_loss self) (savedir self)
    (plot_training_history self) (train_loss self) (test_loss self).

Definition append_train_loss `{Backend} (self : net_train) (x : float)
  : net_train :=
  NetTrain (net_ self) (criterion self) (batch_idx_train self)
    (batch_idx_test self) (images_all self) (labels_all self)
    (images_test_all self) (labels_test_all self) (num_classes self)
    (batch_size self) (training_cycles self) (print_loss self) (savedir self)
    (plot_training_history self) (train_loss self ++ [x]) (test_loss self).

Definition append_test_loss `{Backend} (self : net_train) (x : float)
  : net_train :=
  NetTrain (net_ self) (criterion self) (batch_idx_train self)
    (batch_idx_test self) (images_all self) (labels_all self)
    (images_test_all self) (labels_test_all self) (num_classes self)
    (batch_size self) (training_cycles self) (print_loss self) (savedir self)
    (plot_training_history self) (train_loss self) (test_loss self ++ [x]).

(** [dataloader], lines 148-159 *)
Definition dataloader `{Backend} (self : net_train)
    (imgs : batches image) (labs : batches label) (batch_num : nat)
  : result (list image * (label_dtype * list label)) :=
  ib ← getitem imgs batch_num;
  let images := take (batch_size self) ib in
  lb ← getitem labs batch_num;
  let labels := take (batch_size self) lb in
  Ok (images,
      (if num_classes self =? 1 then TorchFloat else TorchLong, labels)).

(** [train_step], lines 161-169: returns the loss, updates [self.net] *)
Definition train_step `{Backend} (self : net_train)
    (img : list image) (lbl : label_dtype * list label) : float * net_train :=
  let '(n, loss) := train_pass (criterion self) (net_ self) img lbl in
  (loss, set_net self n).

(** [test_step], lines 171-177 *)
Definition test_step `{Backend} (self : net_train)
    (img : list image) (lbl : label_dtype * list label) : float :=
  test_pass (criterion self) (net_ self) img lbl.

(** [for x in xs: body], threading the state through the error monad *)
Fixpoint for_each {S : Type} (body : nat → S → result S) (xs : list nat)
    (s : S) : result S :=
  match xs with
  | [] => Ok s
  | x :: xs' => s' ← body x s; for_each body xs' s'
  end.

(** The test of line 201, with the short-circuit [and]. *)
Definition test_loss_improved `{Backend} (self : net_train) (e : nat)
  : result bool :=
  if negb (0 <? e) then Ok false
  else
    cur ← py_last (test_loss self);
    m ← py_min (py_init (test_loss self));
    Ok (SFltb cur m).

(** The test of line 194, with the short-circuit [or]. *)
Definition prints_at `{Backend} (self : net_train) (e : nat) : result bool :=
  if e =? 0 then Ok true
  else if print_loss self =? 0 then Raise ZeroDivisionError
  else Ok ((e + 1) mod print_loss self =? 0).

(** One iteration of the loop of [run], lines 181-203 *)
Definition cycle `{Backend} (e : nat) (st : net_train * world)
  : result (net_train * world) :=
  let '(self, w) := st in
  bn ← index (batch_idx_train self) e;
  '(images, labels) ← dataloader self (images_all self) (labels_all self) bn;
  let '(loss, self) := train_step self images labels in
  let self := append_train_loss self loss in
  bn_ ← index (batch_idx_test self) e;
  '(images_, labels_) ←
    dataloader self (images_test_all self) (labels_test_all self) bn_;
  let loss_ := test_step self images_ labels_ in
  let self := append_test_loss self loss_ in
  p ← prints_at self e;
  w ← (if p : bool then
         tr ← py_last (train_loss self);
         te ← py_last (test_loss self);
         Ok (print (EpochLine (e + 1) tr te) w)
       else Ok w);
  b ← test_loss_improved self e;
  let w := if b : bool
           then note_best e (torch_save (net_ self) (best_path (savedir self)) w)
           else w in
  Ok (self, w).

(** The final evaluation pass, lines 208-213 *)
Definition eval_pass `{Backend} (self : net_train) (idx : nat)
    (running_loss_test : float) : result float :=
  '(images_, labels_) ←
    dataloader self (images_test_all self) (labels_test_all self) idx;
  let loss := test_step self images_ labels_ in
  Ok (float_add running_loss_test loss).

(** [run], lines 179-218 *)
Definition run `{Backend} (self : net_train) (w : world)
  : result (net * (net_train * world)) :=
  '(self, w) ← for_each cycle (seq 0 (training_cycles self)) (self, w);
  let w := torch_save (net_ self) (final_path (savedir self)) w in
  running_loss_test ←
    for_each (eval_pass self) (seq 0 (py_len (images_test_all self)))
      (S754_zero false);
  _ ← (if py_len (images_test_all self) =? 0
       then Raise ZeroDivisionError else Ok tt);
  let w :=
    print (EvalLine (float_div running_loss_test
                       (float_of_nat (py_len (images_test_all self))))) w in
  let w := if plot_training_history self
           then print (PlotLosses (train_loss self) (test_loss self)) w
           else w in
  Ok (net_ self, (self, w)).

(** ** The constructor [net_train.__init__], lines 63-146 *)

(** Name resolution at line 144.  [__init__] assigns to no local of that
    name, so the right-hand side is looked up among the parameters and
    locals of the call, then among the names bound at module level, then
    among the builtins the module uses. *)
Inductive pyval : Type :=
| VBool (b : bool)
| VObject.

Definition truthy (v : pyval) : bool :=
  match v with VBool b => b | VObject => true end.

Definition init_locals (plot_losses : bool) : list (string * pyval) :=
  [("self", VObject); ("images_all", VObject); ("labels_all", VObject);
   ("images_test_all", VObject); ("labels_test_all", VObject);
   ("training_cycles", VObject); ("batch_size", VObject); ("model", VObject);
   ("model_type", VObject); ("use_batchnorm", VObject);
   ("use_dropouts", VObject); ("loss", VObject); ("with_dilation", VObject);
   ("print_loss", VObject); ("savedir", VObject);
   ("plot_losses", VBool plot_losses); ("num_classes", VObject);
   ("n_train_batches", VObject); ("n_test_batches", VObject)]%string.

Definition module_globals : list (string * pyval) :=
  [("os", VObject); ("time", VObject); ("np", VObject); ("torch", VObject);
   ("F", VObject); ("dice", VObject); ("dilnet", VObject);
   ("dilUnet", VObject); ("torch_format", VObject); ("load_model", VObject);
   ("Hook", VObject); ("mock_forward", VObject); ("plot_losses", VObject);
   ("img_pad", VObject); ("img_resize", VObject); ("net_train", VObject);
   ("net_predict", VObject)]%string.

Definition builtins : list (string * pyval) :=
  [("type", VObject); ("list", VObject); ("dict", VObject); ("set", VObject);
   ("len", VObject); ("range", VObject); ("min", VObject); ("max", VObject);
   ("str", VObject); ("print", VObject); ("isinstance", VObject);
   ("NotImplementedError", VObject)]%string.

Fixpoint assoc (x : string) (env : list (string * pyval)) : option pyval :=
  match env with
  | [] => None
  | (y, v) :: env' => if String.eqb x y then Some v else assoc x env'
  end.

Definition load_name (locals : list (string * pyval)) (x : string)
  : result pyval :=
  match assoc x (locals ++ module_globals ++ builtins) with
  | Some v => Ok v
  | None => Raise (NameError x)
  end.

(** [np.random.randint(0, high, size)]: an empty request is served before
    the bounds are looked at; otherwise an empty range is an error. *)
Definition randint `{Backend} (g : rng) (high size : nat)
  : result (list nat * rng) :=
  if size =? 0 then Ok ([], g)
  else if high =? 0 then Raise (ValueError "low >= high")
  else Ok (rand_below g high size).

Definition msg_models : string :=
  "Currently implemented models are 'dilUnet' and 'dilnet'".
Definition msg_losses : string :=
  "Choose between Dice loss ('dice') and cross-entropy loss ('ce')".

Definition select_model `{Backend} (model_type : string) (num_classes : nat)
    (with_dilation use_dropouts use_batchnorm : bool) : result net :=
  if String.eqb model_type "dilUnet" then
    Ok (dilUnet num_classes 16 with_dilation use_dropouts use_batchnorm)
  else if String.eqb model_type "dilnet" then
    Ok (dilnet num_classes 25 use_dropouts use_batchnorm)
  else Raise (NotImplementedError msg_models).

Definition select_loss (loss : string) (num_classes : nat)
  : result criterion_kind :=
  if String.eqb loss "dice" then Ok DiceLoss
  else if String.eqb loss "ce" && (num_classes =? 1) then Ok BCEWithLogitsLoss
  else if String.eqb loss "ce" && (2 <? num_classes) then Ok CrossEntropyLoss
  else Raise (NotImplementedError msg_losses).

Record init_args `{Backend} : Type := InitArgs {
  arg_images_all : pydata image;
  arg_labels_all : pydata label;
  arg_images_test_all : pydata image;
  arg_labels_test_all : pydata label;
  arg_training_cycles : nat;
  arg_batch_size : nat;
  arg_model_type : string;
  arg_use_batchnorm : bool;
  arg_use_dropouts : bool;
  arg_loss : string;
  arg_with_dilation : bool;
  arg_print_loss : nat;
  arg_savedir : string;
  arg_plot_losses : bool
}.
Arguments InitArgs {_}.

(** Lines 80-145: everything [__init__] does before it calls [run]. *)
Definition init_fields `{Backend} (a : init_args) (g : rng)
  : result net_train :=
  d ← normalize (arg_images_all a) (arg_labels_all a)
        (arg_images_test_all a) (arg_labels_test_all a) (arg_batch_size a);
  let num_classes := ds_num_classes d in
  n ← select_model (arg_model_type a) num_classes (arg_with_dilation a)
        (arg_use_dropouts a) (arg_use_batchnorm a);
  crit ← select_loss (arg_loss a) num_classes;
  '(idx_train, g) ←
    randint g (py_len (ds_images_all d)) (arg_training_cycles a);
  '(idx_test, g) ←
    randint g (py_len (ds_images_test_all d)) (arg_training_cycles a);
  history ← load_name (init_locals (arg_plot_losses a)) "plot_training_history";
  Ok (NetTrain n crit idx_train idx_test (ds_images_all d) (ds_labels_all d)
        (ds_images_test_all d) (ds_labels_test_all d) num_classes
        (arg_batch_size a) (arg_training_cycles a) (arg_print_loss a)
        (arg_savedir a) (truthy history) [] []).

Definition net_train_init `{Backend} (a : init_args) (g : rng) (w : world)
  : result (net_train * world) :=
  self ← init_fields a g;
  '(_, st) ← run self w;
  Ok st.

(** ** Rank-4 tensors

    A tensor is its shape and its entries.  Two tensors are the same array
    when the shapes agree and the entries agree inside the shape. *)

Record tensor4 : Type := Tensor4 {
  shape : nat * nat * nat * nat;
  data : nat → nat → nat → nat → float
}.

Definition dim0 (t : tensor4) : nat := (shape t).1.1.1.
Definition dim1 (t : tensor4) : nat := (shape t).1.1.2.
Definition dim2 (t : tensor4) : nat := (shape t).1.2.
Definition dim3 (t : tensor4) : nat := (shape t).2.

Definition same_array (a b : tensor4) : Prop :=
  shape a = shape b ∧
  ∀ i j k l, i < dim0 a → j < dim1 a → k < dim2 a → l < dim3 a →
             data a i j k l = data b i j k l.

(** [t[i:i+1]] *)
Definition slice1 (t : tensor4) (i : nat) : tensor4 :=
  Tensor4 (if i <? dim0 t then 1 else 0, dim1 t, dim2 t, dim3 t)
          (λ k, data t (i + k)).

(** [t.permute(0, 2, 3, 1)] *)
Definition permute_0231 (t : tensor4) : tensor4 :=
  Tensor4 (dim0 t, dim2 t, dim3 t, dim1 t)
          (λ i h w c, data t i c h w).

(** [np.zeros(shape)] *)
Definition np_zeros (sh : nat * nat * nat * nat) : tensor4 :=
  Tensor4 sh (λ _ _ _ _, S754_zero false).

(** One axis of numpy's broadcasting rule for an assignment. *)
Definition fits (src dst : nat) : bool := (src =? dst) || (src =? 1).
Definition pick (src x : nat) : nat := if src =? 1 then 0 else x.

(** [dst[i, :, :, :] = v] *)
Definition setitem (dst : tensor4) (i : nat) (v : tensor4) : result tensor4 :=
  if negb (i <? dim0 dst) then Raise IndexError
  else if (dim0 v =? 1) && fits (dim1 v) (dim1 dst)
          && fits (dim2 v) (dim2 dst) && fits (dim3 v) (dim3 dst)
  then Ok (Tensor4 (shape dst)
             (λ i' x y z,
                if i' =? i
                then data v 0 (pick (dim1 v) x) (pick (dim2 v) y)
                            (pick (dim3 v) z)
                else data dst i' x y z))
  else Raise (ValueError "could not broadcast input array").

(** ** The inference controller [net_predict] *)

Class Predictor : Type := {
  model : Type;
  forward : model → tensor4 → tensor4;
  softmax : list float → list float;
  sigmoid : float → float
}.

(** [F.softmax(prob, dim=1)] and [torch.sigmoid(prob)] *)
Definition softmax_dim1 `{Predictor} (t : tensor4) : tensor4 :=
  Tensor4 (shape t)
    (λ i c h w,
       nth c (softmax ((λ c', data t i c' h w) <$> seq 0 (dim1 t)))
         S754_nan).

Definition sigmoid_all `{Predictor} (t : tensor4) : tensor4 :=
  Tensor4 (shape t) (λ i c h w, sigmoid (data t i c h w)).

Record net_predict `{Predictor} : Type := NetPredict {
  nb_classes : nat;
  the_model : model;
  image_data : tensor4;
  use_gpu : bool
}.
Arguments NetPredict {_}.

(** What an inference run leaves behind: the batch sizes handed to
    [model.forward], in order (a history variable), and the report line. *)
Record predict_log : Type := PredictLog {
  forward_calls : list nat;
  reported : list nat
}.

(** [predict], lines 287-304 *)
Definition predict `{Predictor} (self : net_predict) (images : tensor4)
    (lg : predict_log) : tensor4 * predict_log :=
  let prob := forward (the_model self) images in
  let prob := if 1 <? nb_classes self then softmax_dim1 prob
              else sigmoid_all prob in
  (permute_0231 prob,
   PredictLog (forward_calls lg ++ [dim0 images]) (reported lg)).

Inductive tiling : Type :=
| WholeStack
| PerImage.

(** The test of line 309 *)
Definition tiling_policy (t : tensor4) : tiling :=
  if (dim0 t <? 20) && (dim2 t `min` dim3 t <? 512)
  then WholeStack else PerImage.

(** The loop of lines 314-315 *)
Fixpoint predict_each `{Predictor} (self : net_predict) (idxs : list nat)
    (decoded : tensor4) (lg : predict_log) : result (tensor4 * predict_log) :=
  match idxs with
  | [] => Ok (decoded, lg)
  | i :: idxs' =>
      let '(v, lg) := predict self (slice1 (image_data self) i) lg in
      decoded ← setitem decoded i v;
      predict_each self idxs' decoded lg
  end.

(** [run], lines 306-322: returns [(images_numpy, decoded_imgs)] *)
Definition predict_run `{Predictor} (self : net_predict) (lg : predict_log)
  : result ((tensor4 * tensor4) * predict_log) :=
  '(decoded_imgs, lg) ←
    match tiling_policy (image_data self) with
    | WholeStack => Ok (predict self (image_data self) lg)
    | PerImage =>
        let n := dim0 (image_data self) in
        let w := dim2 (image_data self) in
        let h := dim3 (image_data self) in
        predict_each self (seq 0 n)
          (np_zeros (n, w, h, nb_classes self)) lg
    end;
  let lg := PredictLog (forward_calls lg) (reported lg ++ [dim0 decoded_imgs]) in
  Ok ((permute_0231 (image_data self), decoded_imgs), lg).

(** The two branches of [run] on their own, to compare them on one input. *)
Definition run_whole_stack `{Predictor} (self : net_predict)
  : result tensor4 :=
  Ok (predict self (image_data self) (PredictLog [] [])).1.

Definition run_per_image `{Predictor} (self : net_predict) : result tensor4 :=
  r ← predict_each self (seq 0 (dim0 (image_data self)))
        (np_zeros (dim0 (image_data self), dim2 (image_data self),
                   dim3 (image_data self), nb_classes self))
        (PredictLog [] []);
  Ok r.1.

(** ** [dklGPR.decode], lines 158-187

    The Gaussian-process layer is a collaborator: its tensors, the feature
    extractor, the mean and kernel modules and the cached prediction
    strategy are behind [GPLayer]. *)

Class GPLayer : Type := {
  gp_model : Type;
  gp_tensor : Type;
  gp_covar : Type;
  gp_strategy : Type;
  prediction_strategy : gp_model → option gp_strategy;
  compute_posterior : gp_model → gp_tensor → gp_model;
  train_inputs0 : gp_model → gp_tensor;
  first_row : gp_tensor → gp_tensor;
  feature_extractor : gp_model → gp_tensor → gp_tensor;
  set_data : gp_tensor → gp_tensor;
  cat0 : gp_tensor → gp_tensor → gp_tensor;
  scale_to_bounds : gp_model → gp_tensor → gp_tensor;
  mean_module : gp_model → gp_tensor → gp_tensor;
  covar_module : gp_model → gp_tensor → gp_covar;
  exact_prediction :
    gp_strategy → gp_tensor → gp_covar → gp_tensor * gp_covar;
  variance : gp_covar → gp_tensor;
  transpose : gp_tensor → gp_tensor
}.

Record dklGPR `{GPLayer} : Type := DklGPR {
  correlated_output : bool;
  the_gp_model : gp_model
}.
Arguments DklGPR {_}.

Definition decode `{GPLayer} (self : dklGPR) (z_emb : gp_tensor)
  : result ((gp_tensor * gp_tensor) * dklGPR) :=
  if negb (correlated_output self) then Raise UnsupportedMode
  else
    let m := the_gp_model self in
    let m := match prediction_strategy m with
             | None => compute_posterior m (first_row (train_inputs0 m))
             | Some _ => m
             end in
    match prediction_strategy m with
    | None => Raise (AttributeError "exact_prediction")
    | Some pstrategy =>
        let z_emb_training := feature_extractor m (train_inputs0 m) in
        let z_emb := set_data z_emb in
        let z_emb := cat0 z_emb z_emb_training in
        let z_emb := scale_to_bounds m z_emb in
        let mean_z := mean_module m z_emb in
        let covar_z := covar_module m z_emb in
        let '(pmean, pcovar) := exact_prediction pstrategy mean_z covar_z in
        Ok ((transpose pmean, transpose (variance pcovar)),
            DklGPR (correlated_output self) m)
    end.

(** ** Observations used in the statements *)

(** The number of output channels a normalisation ends with. *)
Definition channels {image : Type} (r : result (dataset image)) : result nat :=
  d ← r; Ok (ds_num_classes d).

(** The number of samples of a bulk array (0 for the other containers). *)
Definition array_len {A : Type} (d : pydata A) : nat :=
  match d with NdArray l => length l | _ => 0 end.

(** The decision of line 201 at cycle [e], read off a test-loss history
    [L] that already contains cycle [e]. *)
Definition improves (L : list float) (e : nat) : bool :=
  match L !! e, py_min (take e L) with
  | Some cur, Ok m => (0 <? e) && SFltb cur m
  | _, _ => false
  end.

(** The cycles below [k] at which the history improves, most recent first. *)
Fixpoint best_log (L : list float) (k : nat) : list nat :=
  match k with
  | 0 => []
  | S k' => if improves L k' then k' :: best_log L k' else best_log L k'
  end.

(** The trainer after some cycles: a new network and longer histories. *)
Definition evolve `{Backend} (self : net_train) (n : net)
    (tr te : list float) : net_train :=
  NetTrain n (criterion self) (batch_idx_train self) (batch_idx_test self)
    (images_all self) (labels_all self) (images_test_all self)
    (labels_test_all self) (num_classes self) (batch_size self)
    (training_cycles self) (print_loss self) (savedir self)
    (plot_training_history self) (train_loss self ++ tr) (test_loss self ++ te).

(** A configuration on which no indexing and no division can fail: the
    batch indices of every cycle exist and select stored batches, the test
    set is not empty and is indexed from 0, and [print_loss] is not 0 when
    there is a second cycle. *)
Definition batch_ok {A B : Type} (imgs : batches A) (labs : batches B)
    (k : nat) : bool :=
  is_ok (getitem imgs k) && is_ok (getitem labs k).

Definition cycle_ok `{Backend} (self : net_train) (e : nat) : bool :=
  match batch_idx_train self !! e, batch_idx_test self !! e with
  | Some a, Some b =>
      batch_ok (images_all self) (labels_all self) a
      && batch_ok (images_test_all self) (labels_test_all self) b
  | _, _ => false
  end.

Definition runnable `{Backend} (self : net_train) : bool :=
  forallb (cycle_ok self) (seq 0 (training_cycles self))
  && ((training_cycles self <=? 1) || negb (print_loss self =? 0))
  && negb (py_len (images_test_all self) =? 0)
  && forallb (batch_ok (images_test_all self) (labels_test_all self))
       (seq 0 (py_len (images_test_all self))).

(** ** Example collaborators

    A backend whose losses follow a script: the network is the number of
    optimiser steps taken so far, the training loss of step [n] is the
    [n]-th entry of [train], the test loss after [n] steps is entry [n - 1]
    of [test].  Batch indices are always 0. *)
Definition scripted (train test : list float) : Backend := {|
  image := nat;
  net := nat;
  rng := unit;
  dilUnet _ _ _ _ _ := 0;
  dilnet _ _ _ _ := 0;
  train_pass _ n _ _ := (S n, nth n train S754_nan);
  test_pass _ n _ _ := nth (n - 1) test S754_nan;
  rand_below g _ size := (replicate size 0, g)
|}.

(** Small integers as floats. *)
Definition fl (z : Z) : float := binary_normalize prec64 emax64 z 0 false.

Definition empty_world `{Backend} : world := World ∅ [] [].

(** A binary mask with both classes, a mask with background only. *)
Definition mask01 : label := [0; 1]%Z.
Definition mask0 : label := [0; 0]%Z.

(** A model that answers with the map of the first image only, whatever the
    batch, and a model that returns its input.  The activations are taken
    as the identity: the examples look at shapes and at the order of the
    calls, not at the values. *)
Definition first_only : Predictor := {|
  model := unit;
  forward _ t := slice1 t 0;
  softmax := id;
  sigmoid := id
|}.

Definition identity_model : Predictor := {|
  model := unit;
  forward _ t := t;
  softmax := id;
  sigmoid := id
|}.

(** A stack of [n] single-channel images of [h] x [w] pixels; pixel
    [(i, _, y, x)] holds [i + y + x]. *)
Definition ramp (n h w : nat) : tensor4 :=
  Tensor4 (n, 1, h, w) (λ i _ y x, fl (Z.of_nat (i + y + x))).

(** A trainer as the constructor would set it up, on one training batch
    and one test batch, with scripted losses. *)
Definition example_trainer (train test : list float) (cycles : nat)
  : net_train (H := scripted train test) :=
  NetTrain (H := scripted train test) 0 DiceLoss
    (replicate cycles 0) (replicate cycles 0)
    (BList [[0; 1]]) (BList [[mask01; mask01]])
    (BList [[2; 3]]) (BList [[mask01; mask01]])
    1 2 cycles 100 "./" false [] [].

Definition neg_inf : float := S754_infinity true.
Definition pos_inf : float := S754_infinity false.

(** A Gaussian-process layer without content, to call [decode] on. *)
Definition trivial_gp : GPLayer := {|
  gp_model := unit;
  gp_tensor := list nat;
  gp_covar := unit;
  gp_strategy := unit;
  prediction_strategy _ := Some tt;
  compute_posterior m _ := m;
  train_inputs0 _ := [];
  first_row x := take 1 x;
  feature_extractor _ x := x;
  set_data x := x;
  cat0 x y := x ++ y;
  scale_to_bounds _ x := x;
  mean_module _ x := x;
  covar_module _ _ := tt;
  exact_prediction _ mean c := (mean, c);
  variance _ := [];
  transpose x := x
|}.

(** A Gaussian-process layer that has a prediction strategy only once its
    posterior was computed: the model is the flag that says so. *)
Definition lazy_gp : GPLayer := {|
  gp_model := bool;
  gp_tensor := list nat;
  gp_covar := unit;
  gp_strategy := unit;
  prediction_strategy m := if m then Some tt else None;
  compute_posterior _ _ := true;
  train_inputs0 _ := [];
  first_row x := take 1 x;
  feature_extractor _ x := x;
  set_data x := x;
  cat0 x y := x ++ y;
  scale_to_bounds _ x := x;
  mean_module _ x := x;
  covar_module _ _ := tt;
  exact_prediction _ mean c := (mean, c);
  variance _ := [];
  transpose x := x
|}.

(** Arguments of the constructor with the default model and loss. *)
Definition default_args : init_args (H := scripted [] []) :=
  InitArgs (H := scripted [] []) (PyList [[7]]) (PyList [[mask01]])
    (PyList [[8]]) (PyList [[mask01]]) 10 32 "dilUnet" true false "dice"
    true 100 "./" true.

(** Arguments of the constructor that differ from the defaults in the
    model type and the loss only. *)
Definition args_with (model_type loss : string)
  : init_args (H := scripted [] []) :=
  InitArgs (H := scripted [] []) (PyList [[7]]) (PyList [[mask01]])
    (PyList [[8]]) (PyList [[mask01]]) 10 32 model_type true false loss
    true 100 "./" true.

(** Twenty-five small images through the identity model. *)
Definition long_stack : net_predict (H := identity_model) :=
  NetPredict (H := identity_model) 1 tt (ramp 25 2 2) false.

(** ** More observations on a training run *)

(** Whether cycle [e] reports its losses (the test of line 194, when it
    does not raise). *)
Definition printed (print_loss e : nat) : bool :=
  (e =? 0) || ((e + 1) mod print_loss =? 0).

(** The progress lines of the first [k] cycles, read off the losses [TR]
    and [TE] that these cycles recorded. *)
Definition epoch_lines (print_loss : nat) (TR TE : list float) (k : nat)
  : list output :=
  flat_map
    (λ e, if printed print_loss e
          then match TR !! e, TE !! e with
               | Some a, Some b => [EpochLine (e + 1) a b]
               | _, _ => []
               end
          else [])
    (seq 0 k).

(** What a console entry is, apart from the loss values it shows: a
    progress line with its cycle number, the evaluation line, or the call
    of [plot_losses] with the two histories it is given. *)
Inductive line_kind : Type :=
| Progress (epoch : nat)
| Evaluation
| Plot (train_loss test_loss : list float).

Definition kind_of (o : output) : line_kind :=
  match o with
  | EpochLine e _ _ => Progress e
  | EvalLine _ => Evaluation
  | PlotLosses a b => Plot a b
  end.

(** The mean loss that the final pass over the test batches reports
    (lines 208-215). *)
Definition eval_mean `{Backend} (self : net_train) : result float :=
  acc ← for_each (eval_pass self) (seq 0 (py_len (images_test_all self)))
          (S754_zero false);
  _ ← (if py_len (images_test_all self) =? 0
       then Raise ZeroDivisionError else Ok tt);
  Ok (float_div acc (float_of_nat (py_len (images_test_all self)))).

(** ** [seg_augmentor], segmentor.py lines 198-223

    The transforms themselves are collaborators: [datatransform_run] is
    [datatransform(nb_classes, "channel_first", "channel_first", True, seed,
    **augdict).run], applied to the first channel of the images and to the
    labels with their channels unsqueezed. *)

Definition auglist : list string :=
  ["custom_transform"; "zoom"; "gauss_noise"; "jitter"; "poisson_noise";
   "contrast"; "salt_and_pepper"; "blur"; "resize"; "rotation";
   "background"]%string.

Class Transforms : Type := {
  kwarg : Type;
  aug_images : Type;
  aug_labels : Type;
  first_channel : aug_images → aug_images;
  unsqueeze_channels : aug_labels → nat → aug_labels;
  datatransform_run :
    nat → nat → gmap string kwarg → aug_images → aug_labels
    → aug_images * aug_labels
}.

(** [{k: kwargs[k] for k in auglist if k in kwargs.keys()}] *)
Definition pick_kwarg `{Transforms} (kwargs d : gmap string kwarg)
    (k : string) : gmap string kwarg :=
  match kwargs !! k with
  | Some v => <[k := v]> d
  | None => d
  end.

Definition build_augdict `{Transforms} (kwargs : gmap string kwarg)
  : gmap string kwarg :=
  foldl (pick_kwarg kwargs) ∅ auglist.

(** The closure [augmentor] with the two variables it captures. *)
Record augmentor `{Transforms} : Type := Augmentor {
  aug_nb_classes : nat;
  aug_dict : gmap string kwarg
}.
Arguments Augmentor {_}.

Definition seg_augmentor `{Transforms} (nb_classes : nat)
    (kwargs : gmap string kwarg) : option augmentor :=
  let augdict := build_augdict kwargs in
  if size augdict =? 0 then None
  else Some (Augmentor nb_classes augdict).

Definition augment `{Transforms} (a : augmentor) (images : aug_images)
    (labels : aug_labels) (seed : nat)
  : aug_images * (label_dtype * aug_labels) :=
  let '(images, labels) :=
    datatransform_run (aug_nb_classes a) seed (aug_dict a)
      (first_channel images) (unsqueeze_channels labels (aug_nb_classes a)) in
  (images,
   (if aug_nb_classes a =? 1 then TorchFloat else TorchLong, labels)).

(** ** [Segmentor.predict] and [Segmentor.load_weights],
    segmentor.py lines 147-195 *)

Class SegBackend : Type := {
  seg_net : Type;
  seg_weights : Type;
  seg_images : Type;
  seg_output : Type;
  seg_kwargs : Type;
  get_downsample_factor : seg_net → nat;
  seg_predictor_run :
    seg_net → bool → bool → bool → nat → nat → seg_kwargs → seg_images
    → seg_output;
  torch_load : string → string → result seg_weights;
  load_state_dict : seg_net → seg_weights → result seg_net
}.

Record Segmentor `{SegBackend} : Type := MkSegmentor {
  seg_the_net : seg_net;
  seg_nb_classes : nat;
  seg_device : string;
  downsample_factor : option nat
}.
Arguments MkSegmentor {_}.

Definition seg_predict `{SegBackend} (self : Segmentor) (imgdata : seg_images)
    (refine logits : bool) (kwargs : seg_kwargs) : seg_output * Segmentor :=
  let factor :=
    match downsample_factor self with
    | None => get_downsample_factor (seg_the_net self)
    | Some f => f
    end in
  let self :=
    MkSegmentor (seg_the_net self) (seg_nb_classes self) (seg_device self)
      (Some factor) in
  let use_gpu := String.eqb (seg_device self) "cuda" in
  (seg_predictor_run (seg_the_net self) refine use_gpu logits
     (seg_nb_classes self) factor kwargs imgdata, self).

Definition load_weights `{SegBackend} (self : Segmentor) (filepath : string)
  : result Segmentor :=
  weight_dict ← torch_load filepath (seg_device self);
  n ← load_state_dict (seg_the_net self) weight_dict;
  Ok (MkSegmentor n (seg_nb_classes self) (seg_device self)
        (downsample_factor self)).

(** The examples: two options among misspelt ones; a segmentor whose
    downsampling factor is the network itself. *)
Definition plain_transforms : Transforms := {|
  kwarg := nat;
  aug_images := list nat;
  aug_labels := list nat;
  first_channel x := x;
  unsqueeze_channels l _ := l;
  datatransform_run _ _ _ i l := (i, l)
|}.

Definition example_kwargs : gmap string nat :=
  <["rotation" := 1]> (<["gauss_nois" := 20]> (<["zoom" := 2]> ∅)).

Definition counting_seg : SegBackend := {|
  seg_net := nat;
  seg_weights := nat;
  seg_images := nat;
  seg_output := nat * nat;
  seg_kwargs := unit;
  get_downsample_factor n := n;
  seg_predictor_run n _ _ _ _ f _ x := (n + x, f);
  torch_load path _ := if String.eqb path "" then Raise KeyError else Ok 8;
  load_state_dict _ w := Ok w
|}.

(** A model that answers with two copies of the single input channel. *)
Definition two_maps : Predictor := {|
  model := unit;
  forward _ t := Tensor4 (dim0 t, 2, dim2 t, dim3 t) (λ i _ y x, data t i 0 y x);
  softmax := id;
  sigmoid := id
|}.

(** * Properties *)

(** ** The error monad *)

Lemma bind_ok {A B : Type} (r : result A) (k : A → result B) (b : B) :
  r ≫= k = Ok b → ∃ a, r = Ok a ∧ k a = Ok b.
Proof. destruct r as [a|e]; simpl; [eauto | discriminate]. Qed.

Lemma bind_raise {A B : Type} (e : exn) (k : A → result B) :
  Raise e ≫= k = Raise e.
Proof. reflexivity. Qed.

Ltac inv_bind H :=
  let a := fresh "a" in
  let Ha := fresh "Ha" in
  apply bind_ok in H; destruct H as (a & Ha & H).

(** ** Class cardinality *)





Lemma normalize_list {image : Type} (imgs imgs_test : list (list image))
    (labs labs_test : list (list label)) (batch_size : nat) :
  normalize (PyList imgs) (PyList labs) (PyList imgs_test) (PyList labs_test)
    batch_size
  = k ← class_cardinality (class_counts labs);
    Ok (Dataset (BList imgs) (BList labs) (BList imgs_test) (BList labs_test) k).
Proof. reflexivity. Qed.





(** ** Splitting a bulk array *)

Lemma chunks_length {A : Type} (size k : nat) (ary : list A) :
  length (chunks size k ary) = k.
Proof. revert ary. induction k as [|k IH]; intros ary; simpl; auto. Qed.

Lemma chunks_sizes {A : Type} (size k : nat) (ary : list A) :
  size * k ≤ length ary → Forall (λ c, length c = size) (chunks size k ary).
Proof.
  revert ary. induction k as [|k IH]; intros ary Hlen; simpl; constructor.
  - rewrite length_take. lia.
  - apply IH. rewrite length_drop. lia.
Qed.

Lemma np_split_equal {A : Type} (ary : list A) (sections : nat) :
  sections ≠ 0 → length ary mod sections = 0 →
  ∃ cs, np_split ary sections = Ok cs ∧ length cs = sections ∧
        Forall (λ c, length c = length ary / sections) cs.
Proof.
  intros Hs Hm. unfold np_split.
  destruct (sections =? 0) eqn:E0; [apply Nat.eqb_eq in E0; done|].
  rewrite Hm. simpl. eexists. split; [reflexivity|]. split.
  - apply chunks_length.
  - apply chunks_sizes.
    pose proof (Nat.div_mod_eq (length ary) sections). lia.
Qed.

Lemma np_split_unequal {A : Type} (ary : list A) (sections : nat) :
  length ary mod sections ≠ 0 → is_ok (np_split ary sections) = false.
Proof.
  intros Hm. unfold np_split. destruct (sections =? 0); [reflexivity|].
  destruct (length ary mod sections =? 0) eqn:E; [|reflexivity].
  apply Nat.eqb_eq in E. done.
Qed.

(** Whatever batch is stored, [dataloader] hands over at most [batch_size]
    samples. *)
Lemma dataloader_bound `{Backend} (self : net_train) (imgs : batches image)
    (labs : batches label) (k : nat) images dt labels :
  dataloader self imgs labs k = Ok (images, (dt, labels)) →
  length images ≤ batch_size self ∧ length labels ≤ batch_size self.
Proof.
  unfold dataloader. intros Hd.
  destruct (getitem imgs k) as [ib|]; [|discriminate]. simpl in Hd.
  destruct (getitem labs k) as [lb|]; [|discriminate]. simpl in Hd.
  injection Hd as <- _ <-. rewrite !length_take. lia.
Qed.

(** With [n] samples per array and [n] a multiple of [n / b], the bulk form
    is split into [n / b] batches of [n / (n / b)] samples each. *)
Lemma normalize_bulk_split {image : Type} (imgs imgs_test : list image)
    (labs labs_test : list label) (b : nat) (d : dataset image) :
  normalize (NdArray imgs) (NdArray labs) (NdArray imgs_test)
    (NdArray labs_test) b = Ok d →
  ∃ la, ds_labels_all d = BList la ∧ length la = length labs / b ∧
        Forall (λ c, length c = length labs / (length labs / b)) la.
Proof.
  unfold normalize. simpl. intros Hn.
  destruct (np_split imgs _) as [ia|]; [|discriminate]. simpl in Hn.
  destruct (np_split labs _) as [la|] eqn:Hla; [|discriminate]. simpl in Hn.
  destruct (np_split imgs_test _) as [ita|]; [|discriminate]. simpl in Hn.
  destruct (np_split labs_test _) as [lta|]; [|discriminate]. simpl in Hn.
  destruct (class_cardinality _) as [k|]; [|discriminate]. simpl in Hn.
  injection Hn as <-. simpl. exists la. split; [reflexivity|].
  unfold np_split in Hla.
  destruct (length labs / b =? 0); [discriminate|].
  destruct (length labs `mod` (length labs / b) =? 0) eqn:E; [|discriminate].
  simpl in Hla. injection Hla as <-. apply Nat.eqb_eq in E. split.
  - apply chunks_length.
  - apply chunks_sizes.
    pose proof (Nat.div_mod_eq (length labs) (length labs / b)). lia.
Qed.

(** With [n] not a multiple of [n / b] the split of the training arrays
    raises, whatever the labels are. *)
Lemma normalize_bulk_unequal {image : Type} (imgs imgs_test : list image)
    (labs labs_test : list label) (b : nat) :
  length imgs = length labs →
  length labs mod (length labs / b) ≠ 0 →
  is_ok (normalize (NdArray imgs) (NdArray labs) (NdArray imgs_test)
           (NdArray labs_test) b) = false.
Proof.
  intros Hlen Hm. unfold normalize. simpl.
  pose proof (np_split_unequal imgs (length labs / b)) as Hs.
  rewrite Hlen in Hs. specialize (Hs Hm).
  destruct (np_split imgs _); [discriminate|reflexivity].
Qed.

(** C1: seven samples with batch size 3 (n >= b, n not divisible by b) are
    not split into floor(7 / 3) = 2 batches: [np.split] raises. *)
Theorem normalize_bulk_7_3 :
  normalize (image := nat)
    (NdArray [1; 2; 3; 4; 5; 6; 7]) (NdArray (replicate 7 mask01))
    (NdArray [1; 2; 3]) (NdArray (replicate 3 mask01)) 3
  = Raise (ValueError "array split does not result in an equal division").
Proof. reflexivity. Qed.

(** Ten samples with batch size 4 are split into two batches of five,
    of which [dataloader] later keeps four. *)
Example normalize_bulk_10_4 :
  normalize (image := nat)
    (NdArray (seq 0 10)) (NdArray (replicate 10 mask01))
    (NdArray (seq 0 4)) (NdArray (replicate 4 mask01)) 4
  = Ok (Dataset (BList [[0; 1; 2; 3; 4]; [5; 6; 7; 8; 9]])
          (BList [replicate 5 mask01; replicate 5 mask01])
          (BList [[0; 1; 2; 3]]) (BList [replicate 4 mask01]) 1).
Proof. reflexivity. Qed.

(** ** Which labels the cardinality is computed from *)

(** C10, as stated, fails: test labels without a background class (one
    distinct value) are accepted by the normaliser when the training labels
    have two classes. *)
Lemma background_less_test_labels_accepted :
  normalize (image := nat) (PyList [[7]]) (PyList [[mask01]])
    (PyList [[8]]) (PyList [[mask0]]) 1
  = Ok (Dataset (BList [[7]]) (BList [[mask01]]) (BList [[8]])
          (BList [[mask0]]) 1).
Proof. reflexivity. Qed.

(** Test batches with different numbers of classes are accepted too. *)
Example inconsistent_test_labels_accepted :
  channels (normalize (image := nat) (PyList [[7]]) (PyList [[mask01]])
              (PyList [[8]; [9]]) (PyList [[mask0]; [mask01]]) 1) = Ok 1.
Proof. reflexivity. Qed.

(** C10 (amended): the class cardinality is computed once, from the
    training labels alone.  Replacing the test labels by any other test
    labels of the same container type (and, for a bulk array, of the same
    number of samples) changes neither the outcome of the checks nor the
    channel count. *)
Theorem cardinality_from_training_labels {image : Type}
    (ia : pydata image) (la : pydata label) (ita : pydata image)
    (lta lta' : pydata label) (b : nat) :
  type_of lta = type_of lta' → array_len lta = array_len lta' →
  channels (normalize ia la ita lta b) = channels (normalize ia la ita lta' b).
Proof.
  intros Hty Hlen.
  destruct lta as [l1|m1|a1|n1], lta' as [l2|m2|a2|n2];
    simpl in Hty, Hlen; try discriminate.
  - destruct ia, la, ita; unfold normalize, channels; simpl;
      try reflexivity; destruct (class_cardinality _); reflexivity.
  - destruct ia, la, ita; unfold normalize, channels; simpl;
      try reflexivity; destruct (class_cardinality _); reflexivity.
  - destruct ia as [?|?|imgs|?], la as [?|?|labs|?], ita as [?|?|imgs_t|?];
      try reflexivity.
    unfold normalize, channels. simpl. rewrite Hlen.
    destruct (np_split imgs _); [simpl|reflexivity].
    destruct (np_split labs _); [simpl|reflexivity].
    destruct (np_split imgs_t _); [simpl|reflexivity].
    unfold np_split. rewrite Hlen.
    destruct (length a2 / b =? 0); [reflexivity|].
    destruct (negb _); [reflexivity|]. simpl.
    destruct (class_cardinality _); reflexivity.
  - injection Hty as ->. destruct ia, la, ita; reflexivity.
Qed.

(** ** The constructor *)

Lemma load_name_history (b : bool) :
  load_name (init_locals b) "plot_training_history"
  = Raise (NameError "plot_training_history").
Proof. destruct b; reflexivity. Qed.

Lemma init_fields_raises `{Backend} (a : init_args) (g : rng) :
  is_ok (init_fields a g) = false.
Proof.
  unfold init_fields.
  destruct (normalize _ _ _ _ _) as [d|]; [simpl|reflexivity].
  destruct (select_model _ _ _ _ _) as [n|]; [simpl|reflexivity].
  destruct (select_loss _ _) as [c|]; [simpl|reflexivity].
  destruct (randint g _ _) as [[i1 g1]|]; [simpl|reflexivity].
  destruct (randint g1 _ _) as [[i2 g2]|]; [|reflexivity].
  destruct (arg_plot_losses a); reflexivity.
Qed.

(** C2, as stated, fails: inputs that pass the format and cardinality
    checks but name an unknown model type raise [NotImplementedError], not
    [NameError]. *)
Lemma unknown_model_type_not_name_error :
  net_train_init (H := scripted [] [])
    (InitArgs (H := scripted [] []) (PyList [[7]]) (PyList [[mask01]])
       (PyList [[8]]) (PyList [[mask01]]) 10 32 "resnet" true false "dice"
       true 100 "./" true) tt empty_world
  = Raise (NotImplementedError msg_models).
Proof. reflexivity. Qed.

Lemma select_model_unknown `{Backend} (model_type : string) (k : nat)
    (with_dilation use_dropouts use_batchnorm : bool) :
  model_type ≠ "dilUnet" → model_type ≠ "dilnet" →
  select_model model_type k with_dilation use_dropouts use_batchnorm
  = Raise (NotImplementedError msg_models).
Proof.
  intros H1 H2. unfold select_model.
  apply String.eqb_neq in H1, H2. rewrite H1, H2. reflexivity.
Qed.

Lemma select_loss_unknown (loss : string) (k : nat) :
  loss ≠ "dice" → ¬ (loss = "ce" ∧ (k = 1 ∨ 2 < k)) →
  select_loss loss k = Raise (NotImplementedError msg_losses).
Proof.
  intros H1 H2. unfold select_loss.
  apply String.eqb_neq in H1. rewrite H1.
  destruct (String.eqb loss "ce") eqn:E; [|reflexivity].
  apply String.eqb_eq in E.
  destruct (k =? 1) eqn:E1; [apply Nat.eqb_eq in E1; tauto|].
  destruct (2 <? k) eqn:E2; [apply Nat.ltb_lt in E2; tauto|].
  reflexivity.
Qed.

(** C2 (amended): no call of the constructor completes and [run] is never
    reached: the part of [__init__] before [run] always raises.  When the
    inputs pass the format and cardinality checks and also the model-type
    and loss selection, and the random batch indices can be drawn, the
    exception is the [NameError] of line 144.  Inputs that pass the checks
    and name a model type other than "dilUnet" and "dilnet" raise the
    [NotImplementedError] of line 115 first; inputs with a known model type
    whose loss is not "dice" and not "ce" with 1 or more than 2 output
    channels raise the [NotImplementedError] of line 127 first.  (Moving
    the network to the GPU, lines 118-119, is taken to succeed.) *)
Theorem constructor_never_completes `{Backend} (a : init_args) (g : rng)
    (w : world) :
  is_ok (init_fields a g) = false ∧
  is_ok (net_train_init a g w) = false ∧
  (∀ d n c,
     normalize (arg_images_all a) (arg_labels_all a) (arg_images_test_all a)
       (arg_labels_test_all a) (arg_batch_size a) = Ok d →
     select_model (arg_model_type a) (ds_num_classes d) (arg_with_dilation a)
       (arg_use_dropouts a) (arg_use_batchnorm a) = Ok n →
     select_loss (arg_loss a) (ds_num_classes d) = Ok c →
     (arg_training_cycles a = 0 ∨
      (0 < py_len (ds_images_all d) ∧ 0 < py_len (ds_images_test_all d))) →
     net_train_init a g w = Raise (NameError "plot_training_history")) ∧
  (∀ d,
     normalize (arg_images_all a) (arg_labels_all a) (arg_images_test_all a)
       (arg_labels_test_all a) (arg_batch_size a) = Ok d →
     arg_model_type a ≠ "dilUnet" → arg_model_type a ≠ "dilnet" →
     net_train_init a g w = Raise (NotImplementedError msg_models)) ∧
  (∀ d,
     normalize (arg_images_all a) (arg_labels_all a) (arg_images_test_all a)
       (arg_labels_test_all a) (arg_batch_size a) = Ok d →
     arg_model_type a = "dilUnet" ∨ arg_model_type a = "dilnet" →
     arg_loss a ≠ "dice" →
     ¬ (arg_loss a = "ce" ∧ (ds_num_classes d = 1 ∨ 2 < ds_num_classes d)) →
     net_train_init a g w = Raise (NotImplementedError msg_losses)).
Proof.
  pose proof (init_fields_raises a g) as Hi.
  split; [exact Hi|]. split; [|split; [|split]].
  - unfold net_train_init. destruct (init_fields a g); [discriminate|reflexivity].
  - intros d n c Hd Hn Hc Hr. unfold net_train_init, init_fields.
    rewrite Hd. simpl. rewrite Hn. simpl. rewrite Hc. simpl.
    unfold randint.
    destruct Hr as [-> | [H1 H2]].
    + destruct (arg_plot_losses a); reflexivity.
    + destruct (arg_training_cycles a =? 0).
      * destruct (arg_plot_losses a); reflexivity.
      * destruct (py_len (ds_images_all d)) as [|k1]; [lia|].
        destruct (py_len (ds_images_test_all d)) as [|k2]; [lia|]. simpl.
        destruct (rand_below g (S k1) _) as [i1 g1]. simpl.
        destruct (rand_below g1 (S k2) _) as [i2 g2].
        destruct (arg_plot_losses a); reflexivity.
  - intros d Hd H1 H2. unfold net_train_init, init_fields.
    rewrite Hd. simpl. rewrite select_model_unknown by done. reflexivity.
  - intros d Hd Hm H1 H2. unfold net_train_init, init_fields.
    rewrite Hd. simpl. rewrite (select_loss_unknown _ _ H1 H2).
    unfold select_model.
    destruct Hm as [-> | ->]; reflexivity.
Qed.

(** ** [decode] *)

(** C6: in independent-output mode [decode] raises [UnsupportedMode] on
    every latent input and returns nothing. *)
Theorem decode_independent_unsupported `{GPLayer} (self : dklGPR)
    (z_emb : gp_tensor) :
  correlated_output self = false → decode self z_emb = Raise UnsupportedMode.
Proof. intros Hc. unfold decode. rewrite Hc. reflexivity. Qed.

(** ** Inference tiling *)

Lemma predict_calls `{Predictor} (self : net_predict) (t : tensor4)
    (lg : predict_log) :
  forward_calls (predict self t lg).2 = forward_calls lg ++ [dim0 t] ∧
  reported (predict self t lg).2 = reported lg.
Proof. split; reflexivity. Qed.

Lemma predict_tensor_log `{Predictor} (self : net_predict) (t : tensor4)
    (lg lg' : predict_log) :
  (predict self t lg).1 = (predict self t lg').1.
Proof. reflexivity. Qed.

Lemma predict_shape `{Predictor} (self : net_predict) (t : tensor4)
    (lg : predict_log) :
  shape (predict self t lg).1
  = (dim0 (forward (the_model self) t), dim2 (forward (the_model self) t),
     dim3 (forward (the_model self) t), dim1 (forward (the_model self) t)).
Proof. unfold predict. simpl. destruct (1 <? nb_classes self); reflexivity. Qed.

Lemma setitem_shape (dst v dst' : tensor4) (i : nat) :
  setitem dst i v = Ok dst' → shape dst' = shape dst.
Proof.
  unfold setitem. destruct (negb _); [discriminate|].
  destruct (_ && _); [|discriminate]. intros [= <-]. reflexivity.
Qed.

Lemma predict_each_cons `{Predictor} (self : net_predict) (i : nat)
    (idxs : list nat) (dec : tensor4) (lg : predict_log) :
  predict_each self (i :: idxs) dec lg
  = dec1 ← setitem dec i (predict self (slice1 (image_data self) i) lg).1;
    predict_each self idxs dec1
      (predict self (slice1 (image_data self) i) lg).2.
Proof. reflexivity. Qed.

(** The loop body calls the model on one image at a time. *)
Lemma predict_each_calls `{Predictor} (self : net_predict) (idxs : list nat)
    (dec dec' : tensor4) (lg lg' : predict_log) :
  (∀ i, i ∈ idxs → i < dim0 (image_data self)) →
  predict_each self idxs dec lg = Ok (dec', lg') →
  forward_calls lg' = forward_calls lg ++ replicate (length idxs) 1 ∧
  reported lg' = reported lg ∧ shape dec' = shape dec.
Proof.
  revert dec lg. induction idxs as [|i idxs IH]; intros dec lg Hin Hrun.
  - simpl in Hrun. injection Hrun as <- <-. simpl.
    rewrite app_nil_r. auto.
  - rewrite predict_each_cons in Hrun.
    destruct (setitem dec i _) as [dec1|] eqn:Hset; [|discriminate].
    simpl in Hrun. apply IH in Hrun as (Hc & Hr & Hs).
    + simpl in Hc, Hr. split; [|split].
      * rewrite Hc, <- app_assoc. simpl. f_equal. f_equal.
        unfold dim0 at 1. simpl.
        assert (i < dim0 (image_data self)) as Hi by (apply Hin; left).
        apply Nat.ltb_lt in Hi. rewrite Hi. reflexivity.
      * exact Hr.
      * rewrite Hs. eapply setitem_shape, Hset.
    + intros j Hj. apply Hin. by right.
Qed.

Lemma pick_in_range (src dst x : nat) :
  src = dst → x < dst → pick src x = x.
Proof.
  intros -> Hx. unfold pick. destruct (dst =? 1) eqn:E; [|reflexivity].
  apply Nat.eqb_eq in E. lia.
Qed.

(** When the model maps every single image to [nb_classes] maps of the
    size of the image, the loop succeeds and stores at position [i] what
    [predict] returns for image [i]. *)
Lemma predict_each_data `{Predictor} (self : net_predict) (idxs : list nat)
    (dec : tensor4) (lg : predict_log) (n d2 d3 : nat) :
  shape dec = (n, d2, d3, nb_classes self) →
  (∀ i, i ∈ idxs → i < n) →
  (∀ i, i ∈ idxs →
     shape (forward (the_model self) (slice1 (image_data self) i))
     = (1, nb_classes self, d2, d3)) →
  ∃ dec' lg', predict_each self idxs dec lg = Ok (dec', lg') ∧
    shape dec' = shape dec ∧
    ∀ i x y z, x < d2 → y < d3 → z < nb_classes self →
      data dec' i x y z =
      if bool_decide (i ∈ idxs)
      then data (predict self (slice1 (image_data self) i) lg).1 0 x y z
      else data dec i x y z.
Proof.
  revert dec lg. induction idxs as [|i idxs IH]; intros dec lg Hsh Hin Hfw.
  - exists dec, lg. simpl. split; [reflexivity|]. split; [reflexivity|].
    intros. reflexivity.
  - rewrite predict_each_cons.
    set (v := (predict self (slice1 (image_data self) i) lg).1).
    assert (shape v = (1, d2, d3, nb_classes self)) as Hv.
    { unfold v. rewrite predict_shape. unfold dim0, dim1, dim2, dim3.
      rewrite (Hfw i) by left. reflexivity. }
    assert (i < n) as Hi by (apply Hin; left).
    assert (∃ dec1, setitem dec i v = Ok dec1 ∧ shape dec1 = shape dec ∧
              ∀ i' x y z, x < d2 → y < d3 → z < nb_classes self →
                data dec1 i' x y z =
                if i' =? i then data v 0 x y z else data dec i' x y z)
      as (dec1 & Hset & Hsh1 & Hd1).
    { unfold setitem, dim0, dim1, dim2, dim3, fits. rewrite Hsh, Hv. simpl.
      apply Nat.ltb_lt in Hi. rewrite Hi. simpl. rewrite !Nat.eqb_refl. simpl.
      eexists. split; [reflexivity|]. split; [reflexivity|].
      intros i' x y z Hx Hy Hz. simpl.
      destruct (i' =? i); [|reflexivity].
      rewrite !(pick_in_range _ _ _ eq_refl) by assumption. reflexivity. }
    rewrite Hset. simpl.
    destruct (IH dec1 (predict self (slice1 (image_data self) i) lg).2)
      as (dec' & lg' & Hrun & Hsh' & Hd').
    + rewrite Hsh1. exact Hsh.
    + intros j Hj. apply Hin. by right.
    + intros j Hj. apply Hfw. by right.
    + exists dec', lg'. split; [exact Hrun|]. split; [congruence|].
      intros i' x y z Hx Hy Hz. rewrite Hd' by assumption.
      rewrite Hd1 by assumption.
      destruct (bool_decide (i' ∈ idxs)) eqn:E1.
      * apply bool_decide_eq_true in E1.
        rewrite bool_decide_eq_true_2 by (by right). reflexivity.
      * apply bool_decide_eq_false in E1.
        destruct (i' =? i) eqn:E2.
        -- apply Nat.eqb_eq in E2. subst i'.
           rewrite bool_decide_eq_true_2 by left. reflexivity.
        -- apply Nat.eqb_neq in E2.
           rewrite bool_decide_eq_false_2; [reflexivity|].
           intros [?|?]%elem_of_cons; done.
Qed.



(** ** The two tiling paths *)

Section SampleWise.
Context `{Predictor} (self : net_predict).

Let t := image_data self.
Let m := the_model self.

(** The model returns [nb_classes] maps of the size of the images, and
    treats every image of a batch as it treats the image alone. *)
Hypothesis forward_shape :
  shape (forward m t) = (dim0 t, nb_classes self, dim2 t, dim3 t).
Hypothesis forward_slice :
  ∀ i, i < dim0 t →
       same_array (forward m (slice1 t i)) (slice1 (forward m t) i).

Lemma forward_slice_shape (i : nat) :
  i < dim0 t →
  shape (forward m (slice1 t i)) = (1, nb_classes self, dim2 t, dim3 t).
Proof using forward_shape forward_slice.
  intros Hi. destruct (forward_slice i Hi) as [-> _].
  unfold slice1, dim0, dim1, dim2, dim3. simpl. rewrite forward_shape. simpl.
  apply Nat.ltb_lt in Hi. rewrite Hi. reflexivity.
Qed.

Lemma forward_slice_entry (i c x y : nat) :
  i < dim0 t → c < nb_classes self → x < dim2 t → y < dim3 t →
  data (forward m (slice1 t i)) 0 c x y = data (forward m t) i c x y.
Proof using forward_shape forward_slice.
  intros Hi Hc Hx Hy. destruct (forward_slice i Hi) as [_ Hd].
  pose proof (forward_slice_shape i Hi) as Hs.
  rewrite Hd.
  - simpl. rewrite Nat.add_0_r. reflexivity.
  - unfold dim0. rewrite Hs. simpl. lia.
  - unfold dim1. rewrite Hs. exact Hc.
  - unfold dim2. rewrite Hs. exact Hx.
  - unfold dim3. rewrite Hs. exact Hy.
Qed.

Lemma predict_slice_entry (i x y z : nat) (lg lg' : predict_log) :
  i < dim0 t → x < dim2 t → y < dim3 t → z < nb_classes self →
  data (predict self t lg).1 i x y z
  = data (predict self (slice1 t i) lg').1 0 x y z.
Proof using forward_shape forward_slice.
  intros Hi Hx Hy Hz. unfold predict. fold m. simpl.
  destruct (1 <? nb_classes self); simpl.
  - f_equal. f_equal. unfold dim1.
    rewrite forward_shape, (forward_slice_shape i Hi). simpl.
    apply list_fmap_ext. intros k c Hk.
    apply lookup_seq in Hk as [-> Hc]. simpl.
    symmetry. apply forward_slice_entry; assumption.
  - f_equal. symmetry. apply forward_slice_entry; assumption.
Qed.

Lemma paths_agree :
  ∃ a b, run_whole_stack self = Ok a ∧ run_per_image self = Ok b ∧
         same_array a b.
Proof using forward_shape forward_slice.
  unfold run_whole_stack, run_per_image. fold t.
  destruct (predict_each_data self (seq 0 (dim0 t))
              (np_zeros (dim0 t, dim2 t, dim3 t, nb_classes self))
              (PredictLog [] []) (dim0 t) (dim2 t) (dim3 t))
    as (dec' & lg' & Hrun & Hsh & Hd).
  - reflexivity.
  - intros i Hi. apply elem_of_seq in Hi. lia.
  - intros i Hi. apply elem_of_seq in Hi. apply forward_slice_shape. lia.
  - eexists _, dec'. split; [reflexivity|].
    split; [rewrite Hrun; reflexivity|].
    assert (shape (predict self t (PredictLog [] [])).1
            = (dim0 t, dim2 t, dim3 t, nb_classes self)) as Hsa.
    { rewrite predict_shape. fold m. unfold dim0, dim1, dim2, dim3.
      rewrite forward_shape. reflexivity. }
    split.
    + rewrite Hsa, Hsh. reflexivity.
    + unfold dim0, dim1, dim2, dim3. rewrite Hsa. simpl.
      intros i x y z Hi Hx Hy Hz.
      rewrite Hd by assumption.
      rewrite bool_decide_eq_true_2 by (apply elem_of_seq; lia).
      apply (predict_slice_entry i x y z (PredictLog [] [])
               (PredictLog [] [])); assumption.
Qed.
End SampleWise.

(** C8, as stated, fails: for a model that answers with the map of the
    first image only, the one-batch path returns one map and the per-image
    path returns one map per image. *)
Lemma batch_dependent_model_paths_differ :
  match run_whole_stack (H := first_only) (NetPredict (H := first_only) 1 tt (ramp 3 2 2) false),
        run_per_image (H := first_only) (NetPredict (H := first_only) 1 tt (ramp 3 2 2) false) with
  | Ok a, Ok b => shape a = (1, 2, 2, 1) ∧ shape b = (3, 2, 2, 1)
  | _, _ => False
  end.
Proof. vm_compute. split; reflexivity. Qed.

(** C8 (amended): for a model that returns [nb_classes] maps of the size of
    the images and computes the maps of an image independently of the rest
    of the batch, the one-batch path and the per-image path of [run] both
    return, and return the same array of probability maps. *)
Theorem tiling_paths_agree `{Predictor} (self : net_predict) :
  shape (forward (the_model self) (image_data self))
  = (dim0 (image_data self), nb_classes self, dim2 (image_data self),
     dim3 (image_data self)) →
  (∀ i, i < dim0 (image_data self) →
     same_array (forward (the_model self) (slice1 (image_data self) i))
                (slice1 (forward (the_model self) (image_data self)) i)) →
  ∃ a b, run_whole_stack self = Ok a ∧ run_per_image self = Ok b ∧
         same_array a b.
Proof. intros Hs Hf. exact (paths_agree self Hs Hf). Qed.

(** ** The order of floats *)

Ltac float_cases :=
  repeat match goal with
  | x : spec_float |- _ => destruct x as [[]|[]| |[] ? ?]
  end.

Ltac compare_cases :=
  repeat match goal with
  | |- context [(?a ?= ?b)%Z] => destruct (Z.compare_spec a b)
  | H : context [(?a ?= ?b)%Z] |- _ => destruct (Z.compare_spec a b)
  | |- context [(?a ?= ?b)%positive] => destruct (Pos.compare_spec a b)
  | H : context [(?a ?= ?b)%positive] |- _ => destruct (Pos.compare_spec a b)
  end.

Ltac float_order :=
  unfold SFltb, SFleb, SFcompare, is_nan, pos_inf in *;
  change (Pos.compare_cont Eq) with Pos.compare in *;
  simpl in *; try done;
  compare_cases; simpl in *; subst; try done; try lia.

Lemma SFltb_not_nan (x m : float) :
  SFltb x m = true → is_nan x = false ∧ is_nan m = false ∧ x ≠ pos_inf.
Proof. intros Hlt. float_cases; float_order. Qed.

Lemma SFltb_leb (a b : float) : SFltb a b = true → SFleb a b = true.
Proof. intros Hlt. float_cases; float_order. Qed.

Lemma SFleb_total (a b : float) :
  is_nan a = false → is_nan b = false → SFltb b a = false → SFleb a b = true.
Proof. intros Ha Hb Hlt. float_cases; float_order. Qed.

Lemma SFleb_not_gt (a b : float) : SFleb a b = true → SFltb b a = false.
Proof. intros Hle. float_cases; float_order. Qed.

Lemma SFleb_refl (a : float) : is_nan a = false → SFleb a a = true.
Proof. intros Ha. float_cases; float_order. Qed.

Lemma SFleb_trans (a b c : float) :
  SFleb a b = true → SFleb b c = true → SFleb a c = true.
Proof. intros H1 H2. float_cases; float_order. Qed.

(** ** Python's [min] *)

Lemma py_min_cons (x : float) (rest : list float) :
  py_min (x :: rest) = Ok (foldl min_step x rest).
Proof. reflexivity. Qed.

Lemma py_min_snoc (xs : list float) (y m : float) :
  py_min xs = Ok m → py_min (xs ++ [y]) = Ok (if SFltb y m then y else m).
Proof.
  destruct xs as [|x rest]; [discriminate|].
  rewrite py_min_cons. intros [= <-].
  change ((x :: rest) ++ [y]) with (x :: (rest ++ [y])).
  rewrite py_min_cons, foldl_app. reflexivity.
Qed.

Lemma py_min_nonempty (xs : list float) :
  xs ≠ [] → ∃ m, py_min xs = Ok m.
Proof. destruct xs; [done|]. intros _. eexists. apply py_min_cons. Qed.

Lemma foldl_min_least (rest : list float) (cur : float) :
  is_nan cur = false → (∀ x, x ∈ rest → is_nan x = false) →
  let m := foldl min_step cur rest in
  is_nan m = false ∧ SFleb m cur = true ∧ ∀ x, x ∈ rest → SFleb m x = true.
Proof.
  revert cur. induction rest as [|y rest IH]; intros cur Hc Hr; simpl.
  - split; [exact Hc|]. split; [by apply SFleb_refl|].
    intros x Hx. by apply elem_of_nil in Hx.
  - assert (is_nan y = false) as Hy by (apply Hr; left).
    assert (is_nan (min_step cur y) = false) as Hs.
    { unfold min_step. destruct (SFltb y cur); assumption. }
    destruct (IH (min_step cur y) Hs) as (Hm & Hle & Hall).
    { intros x Hx. apply Hr. by right. }
    assert (SFleb (min_step cur y) cur = true ∧
            SFleb (min_step cur y) y = true) as [Hsc Hsy].
    { unfold min_step. destruct (SFltb y cur) eqn:E.
      - split; [by apply SFltb_leb | by apply SFleb_refl].
      - split; [by apply SFleb_refl | by apply SFleb_total]. }
    split; [exact Hm|]. split.
    + eapply SFleb_trans; eassumption.
    + intros x [->|Hx]%elem_of_cons.
      * eapply SFleb_trans; eassumption.
      * by apply Hall.
Qed.

(** On a history without NaN, [min] returns a least element. *)
Lemma py_min_least (xs : list float) (m : float) :
  (∀ x, x ∈ xs → is_nan x = false) → py_min xs = Ok m →
  ∀ x, x ∈ xs → SFleb m x = true.
Proof.
  destruct xs as [|x0 rest]; [discriminate|].
  intros Hn. rewrite py_min_cons. intros [= <-].
  destruct (foldl_min_least rest x0) as (_ & H0 & Hr).
  - apply Hn. left.
  - intros x Hx. apply Hn. by right.
  - intros x [->|Hx]%elem_of_cons; [exact H0 | by apply Hr].
Qed.

(** ** Reading the checkpoint decisions off a history *)

Lemma improves_app (L more : list float) (e : nat) :
  e < length L → improves (L ++ more) e = improves L e.
Proof.
  intros He. unfold improves.
  rewrite lookup_app_l by exact He.
  rewrite take_app_le by lia. reflexivity.
Qed.

Lemma improves_snoc (L : list float) (te : float) :
  improves (L ++ [te]) (length L)
  = (0 <? length L)
    && match py_min L with Ok m => SFltb te m | Raise _ => false end.
Proof.
  unfold improves.
  rewrite lookup_app_r, Nat.sub_diag by lia. simpl.
  rewrite take_app_le, firstn_all by lia.
  destruct (py_min L) eqn:E; [reflexivity|].
  destruct (0 <? length L); reflexivity.
Qed.

Lemma best_log_app (L more : list float) (k : nat) :
  k ≤ length L → best_log (L ++ more) k = best_log L k.
Proof.
  induction k as [|k IH]; intros Hk; [reflexivity|]. simpl.
  rewrite improves_app, IH by lia. reflexivity.
Qed.

Lemma elem_of_best_log (L : list float) (k e : nat) :
  e ∈ best_log L k ↔ e < k ∧ improves L e = true.
Proof.
  induction k as [|k IH]; simpl.
  - split; [intros H%elem_of_nil; done | lia].
  - destruct (improves L k) eqn:E.
    + rewrite elem_of_cons, IH. split.
      * intros [->|[? ?]]; split; auto; lia.
      * intros [Hlt Hi]. destruct (decide (e = k)); [by left|right].
        split; [lia|done].
    + rewrite IH. split.
      * intros [? ?]. split; [lia|done].
      * intros [Hlt Hi]. split; [|done].
        destruct (decide (e = k)) as [->|]; [congruence|lia].
Qed.

(** The most recent improving cycle holds [min] of the history; when no
    cycle improves, cycle 0 holds it. *)
Lemma best_log_head (L : list float) (k : nat) :
  k ≤ length L →
  match best_log L k with
  | b :: _ => b < k ∧ ∃ m, py_min (take k L) = Ok m ∧ L !! b = Some m
  | [] => k = 0 ∨ ∃ m, py_min (take k L) = Ok m ∧ L !! 0 = Some m
  end.
Proof.
  induction k as [|k IH]; intros Hk; [by left|].
  destruct (lookup_lt_is_Some_2 L k) as [x Hx]; [lia|].
  rewrite (take_S_r _ _ _ Hx).
  change (best_log L (S k))
    with (if improves L k then k :: best_log L k else best_log L k).
  assert (improves L k
          = (0 <? k) && match py_min (take k L) with
                        | Ok m => SFltb x m | Raise _ => false end) as Hi.
  { unfold improves. rewrite Hx.
    destruct (py_min (take k L)); [reflexivity|].
    destruct (0 <? k); reflexivity. }
  destruct k as [|k'].
  - rewrite Hi. simpl. right. exists x. split; [reflexivity|exact Hx].
  - specialize (IH ltac:(lia)).
    set (bl := best_log L (S k')) in *.
    assert (∃ m b, py_min (take (S k') L) = Ok m ∧ L !! b = Some m ∧
                   match bl with
                   | b' :: _ => b' = b
                   | [] => b = 0
                   end) as (m & b & Hm & Hb & Hlog).
    { destruct bl as [|b' rest].
      - destruct IH as [?|(m & Hm & H0)]; [lia|]. by exists m, 0.
      - destruct IH as (_ & m & Hm & Hb). by exists m, b'. }
    rewrite Hi, Hm. rewrite (py_min_snoc _ x m Hm).
    change (0 <? S k') with true. cbn [andb].
    destruct (SFltb x m) eqn:E.
    + split; [lia|]. by exists x.
    + destruct bl as [|b' rest].
      * right. subst b. by exists m.
      * subst b'. destruct IH as (Hlt & _). split; [lia|]. by exists m.
Qed.

(** ** One training cycle *)

Lemma evolve_evolve `{Backend} (self : net_train) (n1 n2 : net)
    (a b c d : list float) :
  evolve (evolve self n1 a b) n2 c d = evolve self n2 (a ++ c) (b ++ d).
Proof. unfold evolve. simpl. rewrite !app_assoc. reflexivity. Qed.

Lemma py_last_snoc {A : Type} (l : list A) (x : A) : py_last (l ++ [x]) = Ok x.
Proof. unfold py_last. rewrite last_snoc. reflexivity. Qed.

Lemma py_init_snoc {A : Type} (l : list A) (x : A) : py_init (l ++ [x]) = l.
Proof.
  unfold py_init. rewrite length_app. simpl.
  replace (length l + 1 - 1) with (length l) by lia. apply take_app_length.
Qed.

Tactic Notation "step" hyp(H) "as" simple_intropattern(p) "eqn" ident(E) :=
  match type of H with
  | mbind _ ?r = Ok _ =>
      destruct r as [p|] eqn:E;
      [cbn [mbind result_bind] in H | discriminate H]
  end.

Lemma test_loss_improved_snoc `{Backend} (self : net_train) (L : list float)
    (te : float) (e : nat) (b : bool) :
  test_loss self = L ++ [te] → test_loss_improved self e = Ok b →
  b = (0 <? e) && match py_min L with Ok m => SFltb te m | Raise _ => false end.
Proof.
  intros HL. unfold test_loss_improved.
  rewrite HL, py_last_snoc, py_init_snoc.
  destruct (0 <? e); simpl; [|congruence].
  destruct (py_min L); simpl; congruence.
Qed.

Lemma cycle_spec `{Backend} (e : nat) (self self' : net_train) (w w' : world) :
  length (test_loss self) = e →
  cycle e (self, w) = Ok (self', w') →
  ∃ n tr te,
    self' = evolve self n [tr] [te] ∧
    disk w' = (if improves (test_loss self ++ [te]) e
               then <[best_path (savedir self) := n]> (disk w) else disk w) ∧
    best_epochs w' = (if improves (test_loss self ++ [te]) e
                      then e :: best_epochs w else best_epochs w).
Proof.
  unfold cycle. intros <- Hc.
  step Hc as bn eqn Ebn. step Hc as [images labels] eqn Edl.
  unfold train_step in Hc.
  destruct (train_pass _ _ _ _) as [n tr].
  set (s1 := append_train_loss (set_net self n) tr) in *.
  step Hc as bn_ eqn Ebn_. step Hc as [images_ labels_] eqn Edl_.
  set (te := test_step s1 images_ labels_) in *.
  set (s2 := append_test_loss s1 te) in *.
  step Hc as p eqn Ep. step Hc as w1 eqn Ew. step Hc as b eqn Eb.
  injection Hc as <- <-.
  assert (disk w1 = disk w ∧ best_epochs w1 = best_epochs w) as [Hd Hb].
  { destruct p; [|injection Ew as <-; done].
    step Ew as x eqn Ex. step Ew as y eqn Ey. injection Ew as <-. done. }
  assert (b = improves (test_loss self ++ [te]) (length (test_loss self)))
    as ->.
  { rewrite improves_snoc.
    apply (test_loss_improved_snoc s2); [reflexivity|exact Eb]. }
  exists n, tr, te. split; [reflexivity|].
  destruct (improves _ _); simpl; rewrite ?Hd, ?Hb; done.
Qed.

Lemma index_lookup {A : Type} (l : list A) (k : nat) (a : A) :
  l !! k = Some a → index l k = Ok a.
Proof. unfold index. intros ->. reflexivity. Qed.

Lemma dataloader_ok `{Backend} (self : net_train) (imgs : batches image)
    (labs : batches label) (k : nat) :
  batch_ok imgs labs k = true → is_ok (dataloader self imgs labs k) = true.
Proof.
  unfold batch_ok, dataloader. intros [Hi Hl]%andb_true_iff.
  destruct (getitem imgs k); [|discriminate].
  destruct (getitem labs k); [|discriminate]. reflexivity.
Qed.

Lemma cycle_total `{Backend} (e : nat) (self : net_train) (w : world) :
  cycle_ok self e = true →
  (e = 0 ∨ print_loss self ≠ 0) →
  (e = 0 ∨ test_loss self ≠ []) →
  is_ok (cycle e (self, w)) = true.
Proof.
  unfold cycle_ok, cycle. intros Hok Hp Hl.
  destruct (batch_idx_train self !! e) as [a|] eqn:Ea; [|discriminate].
  destruct (batch_idx_test self !! e) as [b|] eqn:Eb; [|discriminate].
  apply andb_true_iff in Hok as [Htr Hte].
  rewrite (index_lookup _ _ _ Ea). cbn [mbind result_bind].
  pose proof (dataloader_ok self _ _ _ Htr) as Hd1.
  destruct (dataloader self (images_all self) (labels_all self) a)
    as [[images labels]|]; [|discriminate]. cbn [mbind result_bind].
  unfold train_step. destruct (train_pass _ _ _ _) as [n tr].
  set (s1 := append_train_loss (set_net self n) tr).
  change (batch_idx_test s1) with (batch_idx_test self).
  rewrite (index_lookup _ _ _ Eb). cbn [mbind result_bind].
  pose proof (dataloader_ok s1 _ _ _ Hte) as Hd2.
  change (images_test_all s1) with (images_test_all self).
  change (labels_test_all s1) with (labels_test_all self).
  destruct (dataloader s1 _ _ b) as [[images_ labels_]|]; [|discriminate].
  cbn [mbind result_bind].
  set (te := test_step s1 images_ labels_).
  set (s2 := append_test_loss s1 te).
  assert (∃ p, prints_at s2 e = Ok p) as [p ->].
  { unfold prints_at. destruct (e =? 0) eqn:E0; [eauto|].
    change (print_loss s2) with (print_loss self).
    destruct (print_loss self =? 0) eqn:E1; [|eauto].
    apply Nat.eqb_neq in E0. apply Nat.eqb_eq in E1. lia. }
  cbn [mbind result_bind].
  change (train_loss s2) with (train_loss self ++ [tr]).
  change (test_loss s2) with (test_loss self ++ [te]).
  rewrite !py_last_snoc.
  assert (∃ b', test_loss_improved s2 e = Ok b') as [b' ->].
  { unfold test_loss_improved.
    change (test_loss s2) with (test_loss self ++ [te]).
    rewrite py_last_snoc, py_init_snoc.
    destruct (0 <? e) eqn:E0; simpl; [|eauto].
    destruct Hl as [->|Hl]; [discriminate|].
    destruct (py_min_nonempty _ Hl) as [m ->]. simpl. eauto. }
  destruct p; reflexivity.
Qed.

(** ** The loop *)

Lemma for_each_app {S : Type} (body : nat → S → result S)
    (xs ys : list nat) (s : S) :
  for_each body (xs ++ ys) s = s' ← for_each body xs s; for_each body ys s'.
Proof.
  revert s. induction xs as [|x xs IH]; intros s; [reflexivity|].
  simpl. destruct (body x s) as [s1|]; [apply IH|reflexivity].
Qed.

Lemma evolve_nil `{Backend} (self : net_train) :
  evolve self (net_ self) [] [] = self.
Proof. destruct self. unfold evolve. simpl. rewrite !app_nil_r. reflexivity. Qed.

Lemma loop_spec `{Backend} (self0 : net_train) (w0 : world) (k : nat)
    (self : net_train) (w : world) :
  test_loss self0 = [] →
  for_each cycle (seq 0 k) (self0, w0) = Ok (self, w) →
  ∃ n TR TE,
    self = evolve self0 n TR TE ∧ length TR = k ∧ length TE = k ∧
    best_epochs w = best_log TE k ++ best_epochs w0 ∧
    (∀ p, p ≠ best_path (savedir self0) → disk w !! p = disk w0 !! p) ∧
    (best_log TE k = [] → disk w = disk w0) ∧
    (best_log TE k ≠ [] → is_Some (disk w !! best_path (savedir self0))).
Proof.
  intros HL0. revert self w. induction k as [|k IH]; intros self w Hrun.
  - simpl in Hrun. injection Hrun as <- <-.
    exists (net_ self0), [], []. rewrite evolve_nil. simpl.
    repeat split; auto; done.
  - rewrite seq_S, for_each_app in Hrun. simpl in Hrun.
    destruct (for_each cycle (seq 0 k) (self0, w0)) as [[self1 w1]|] eqn:E1;
      [|discriminate].
    cbn [mbind result_bind] in Hrun.
    destruct (cycle k (self1, w1)) as [[self2 w2]|] eqn:E2; [|discriminate].
    cbn [mbind result_bind] in Hrun. injection Hrun as <- <-.
    destruct (IH _ _ eq_refl) as (n1 & TR & TE & -> & HTR & HTE & Hb & Hp & He & Hne).
    apply cycle_spec in E2 as (n & tr & te & -> & Hd2 & Hb2);
      [|simpl; rewrite HL0; exact HTE].
    simpl in Hd2, Hb2. rewrite HL0 in Hd2, Hb2. simpl in Hd2, Hb2.
    exists n, (TR ++ [tr]), (TE ++ [te]).
    rewrite evolve_evolve, !length_app. simpl.
    rewrite (best_log_app TE [te] k) by lia.
    split; [reflexivity|]. split; [lia|]. split; [lia|].
    destruct (improves (TE ++ [te]) k).
    + rewrite Hb2, Hd2, Hb. split; [reflexivity|]. split; [|split].
      * intros p Hne'. rewrite lookup_insert_ne by done. by apply Hp.
      * discriminate.
      * intros _. rewrite lookup_insert_eq. eauto.
    + rewrite Hb2, Hd2, Hb. split; [reflexivity|]. split; [exact Hp|].
      split; [exact He|exact Hne].
Qed.

Lemma loop_total `{Backend} (self0 : net_train) (w0 : world) (k : nat) :
  test_loss self0 = [] →
  (∀ e, e < k → cycle_ok self0 e = true) →
  (k ≤ 1 ∨ print_loss self0 ≠ 0) →
  is_ok (for_each cycle (seq 0 k) (self0, w0)) = true.
Proof.
  intros HL0. induction k as [|k IH]; intros Hok Hp; [reflexivity|].
  rewrite seq_S, for_each_app. simpl.
  destruct (for_each cycle (seq 0 k) (self0, w0)) as [[self1 w1]|] eqn:E1.
  - cbn [mbind result_bind].
    apply loop_spec in E1 as (n & TR & TE & -> & _ & HTE & _); [|exact HL0].
    pose proof (cycle_total k (evolve self0 n TR TE) w1) as Hc.
    destruct (cycle k _) as [[self2 w2]|]; [reflexivity|]. apply Hc.
    + apply Hok. lia.
    + simpl. destruct Hp; [left; lia | by right].
    + simpl. rewrite HL0. simpl. destruct TE; [left; simpl in HTE; lia|by right].
  - assert (is_ok (Raise (A := net_train * world) e) = true) as Habs; [|done].
    apply IH; [intros e' He'; apply Hok; lia | destruct Hp; [left; lia|by right]].
Qed.

(** ** The whole run *)

Lemma eval_total `{Backend} (self : net_train) (idxs : list nat)
    (acc : float) :
  (∀ i, i ∈ idxs →
        batch_ok (images_test_all self) (labels_test_all self) i = true) →
  is_ok (for_each (eval_pass self) idxs acc) = true.
Proof.
  revert acc. induction idxs as [|i idxs IH]; intros acc Hok; [reflexivity|].
  cbn [for_each].
  assert (∃ acc', eval_pass self i acc = Ok acc') as [acc' ->].
  { unfold eval_pass.
    pose proof (dataloader_ok self _ _ i (Hok i ltac:(left))) as Hd.
    destruct (dataloader self _ _ i) as [[images_ labels_]|]; [|discriminate].
    cbn [mbind result_bind]. eauto. }
  cbn [mbind result_bind]. apply IH. intros j Hj. apply Hok. by right.
Qed.

Lemma append_prefix_inj (d a b : string) :
  (d ++ a = d ++ b)%string → a = b.
Proof. induction d as [|c d IH]; simpl; [done|]. intros [= Hd]. auto. Qed.

Lemma best_final_distinct (dir : string) : best_path dir ≠ final_path dir.
Proof.
  unfold best_path, final_path, path_join.
  destruct (ends_with_slash dir); intros Heq.
  - apply append_prefix_inj in Heq. discriminate.
  - apply append_prefix_inj in Heq. discriminate.
Qed.

Lemma run_spec `{Backend} (self0 : net_train) (w0 : world) (n : net)
    (self : net_train) (w : world) :
  test_loss self0 = [] →
  run self0 w0 = Ok (n, (self, w)) →
  ∃ TR TE,
    self = evolve self0 n TR TE ∧
    length TR = training_cycles self0 ∧ length TE = training_cycles self0 ∧
    best_epochs w = best_log TE (training_cycles self0) ++ best_epochs w0 ∧
    disk w !! final_path (savedir self0) = Some n ∧
    (best_log TE (training_cycles self0) = [] →
       disk w !! best_path (savedir self0)
       = disk w0 !! best_path (savedir self0)) ∧
    (best_log TE (training_cycles self0) ≠ [] →
       is_Some (disk w !! best_path (savedir self0))).
Proof.
  intros HL0. unfold run. intros Hrun.
  step Hrun as [self1 w1] eqn Eloop.
  apply loop_spec in Eloop
    as (n1 & TR & TE & -> & HTR & HTE & Hb & Hp & He & Hne); [|exact HL0].
  step Hrun as acc eqn Eacc. step Hrun as u eqn Eu.
  injection Hrun as <- <- <-.
  exists TR, TE. split; [reflexivity|]. split; [exact HTR|].
  split; [exact HTE|].
  assert (∀ w' : world,
            best_epochs (if plot_training_history self0
                         then print (PlotLosses (train_loss self0 ++ TR)
                                       (test_loss self0 ++ TE)) w'
                         else w') = best_epochs w' ∧
            disk (if plot_training_history self0
                  then print (PlotLosses (train_loss self0 ++ TR)
                                (test_loss self0 ++ TE)) w'
                  else w') = disk w') as Hplot.
  { intros w'. destruct (plot_training_history self0); done. }
  simpl. destruct (Hplot (print (EvalLine (float_div acc
            (float_of_nat (py_len (images_test_all self0)))))
            (torch_save n1 (final_path (savedir self0)) w1))) as [-> ->].
  simpl. split; [exact Hb|]. split; [apply lookup_insert_eq|].
  pose proof (best_final_distinct (savedir self0)) as Hdist.
  rewrite lookup_insert_ne by done. split.
  - intros Hn. rewrite (He Hn). reflexivity.
  - exact Hne.
Qed.

Lemma forallb_seq (f : nat → bool) (k : nat) :
  forallb f (seq 0 k) = true → ∀ e, e < k → f e = true.
Proof.
  intros Hf e He. apply (proj1 (forallb_forall f (seq 0 k)) Hf).
  apply in_seq. lia.
Qed.

Lemma run_total `{Backend} (self0 : net_train) (w0 : world) :
  test_loss self0 = [] → runnable self0 = true →
  is_ok (run self0 w0) = true.
Proof.
  intros HL0 Hr. unfold runnable in Hr.
  apply andb_true_iff in Hr as [Hr Hev].
  apply andb_true_iff in Hr as [Hr Hlen].
  apply andb_true_iff in Hr as [Hcy Hpr].
  unfold run.
  pose proof (loop_total self0 w0 (training_cycles self0) HL0
                (forallb_seq _ _ Hcy)) as Hloop.
  destruct (for_each cycle _ (self0, w0)) as [[self1 w1]|] eqn:Eloop.
  - cbn [mbind result_bind].
    apply loop_spec in Eloop as (n1 & TR & TE & -> & _); [|exact HL0].
    change (images_test_all (evolve self0 n1 TR TE))
      with (images_test_all self0).
    pose proof (eval_total (evolve self0 n1 TR TE)
                  (seq 0 (py_len (images_test_all self0)))
                  (S754_zero false)) as Hev'.
    destruct (for_each (eval_pass _) _ _) as [acc|].
    + cbn [mbind result_bind].
      destruct (py_len (images_test_all self0) =? 0); [discriminate|].
      reflexivity.
    + apply Hev'. intros i Hi. apply elem_of_seq in Hi.
      apply (forallb_seq _ _ Hev). lia.
  - apply Hloop. apply orb_true_iff in Hpr as [Hle|Hne].
    + left. apply Nat.leb_le in Hle. exact Hle.
    + right. intros H0. rewrite H0 in Hne. discriminate.
Qed.

Lemma improves_true (L : list float) (e : nat) :
  improves L e = true ↔
  0 < e ∧ ∃ cur m, L !! e = Some cur ∧ py_min (take e L) = Ok m ∧
                   SFltb cur m = true.
Proof.
  unfold improves. split.
  - destruct (L !! e) as [cur|]; [|discriminate].
    destruct (py_min (take e L)) as [m|]; [|discriminate].
    intros [He Hlt]%andb_true_iff. apply Nat.ltb_lt in He. eauto 6.
  - intros (He & cur & m & -> & -> & Hlt).
    apply Nat.ltb_lt in He. rewrite He, Hlt. reflexivity.
Qed.

Lemma no_improvement (L : list float) (x0 : float) (k : nat) :
  L !! 0 = Some x0 → (∀ x, x ∈ L → SFleb x0 x = true) →
  k ≤ length L → best_log L k = [].
Proof.
  intros H0 Hmin. induction k as [|k IH]; intros Hk; [reflexivity|].
  simpl. rewrite IH by lia.
  destruct (improves L k) eqn:E; [|reflexivity].
  apply improves_true in E as (Hpos & cur & m & Hcur & Hm & Hlt).
  pose proof (best_log_head L k ltac:(lia)) as Hh.
  rewrite IH in Hh by lia. destruct Hh as [?|(m' & Hm' & H0')]; [lia|].
  assert (m = x0) as -> by congruence.
  assert (SFleb x0 cur = true) as Hle.
  { apply Hmin. eapply list_elem_of_lookup_2. exact Hcur. }
  apply SFleb_not_gt in Hle. congruence.
Qed.

Lemma loop_from `{Backend} (k a : nat) (s s2 : net_train) (w w2 : world) :
  length (test_loss s) = a →
  for_each cycle (seq a k) (s, w) = Ok (s2, w2) →
  ∃ n TR TE, s2 = evolve s n TR TE.
Proof.
  revert a s w. induction k as [|k IH]; intros a s w Ha Hrun.
  - simpl in Hrun. injection Hrun as <- <-.
    exists (net_ s), [], []. by rewrite evolve_nil.
  - change (seq a (S k)) with (a :: seq (S a) k) in Hrun.
    cbn [for_each] in Hrun.
    destruct (cycle a (s, w)) as [[s1 w1]|] eqn:E1; [|discriminate].
    cbn [mbind result_bind] in Hrun.
    apply cycle_spec in E1 as (n & tr & te & -> & _); [|exact Ha].
    apply IH in Hrun as (n2 & TR & TE & ->).
    + rewrite evolve_evolve. eauto.
    + simpl. rewrite length_app. simpl. lia.
Qed.

(** Cycle [e] of a loop of [k > e] cycles: the loop passes through the
    state after [e] cycles, and what cycle [e] does to the disk is decided
    by the test losses that the whole loop records. *)
Lemma loop_cycle_at `{Backend} (self0 : net_train) (w0 : world) (k e : nat)
    (self : net_train) (w : world) :
  test_loss self0 = [] → e < k →
  for_each cycle (seq 0 k) (self0, w0) = Ok (self, w) →
  ∃ s w1 s' w1',
    for_each cycle (seq 0 e) (self0, w0) = Ok (s, w1) ∧
    cycle e (s, w1) = Ok (s', w1') ∧
    disk w1' = (if improves (test_loss self) e
                then <[best_path (savedir self0) := net_ s']> (disk w1)
                else disk w1).
Proof.
  intros HL0 He Hrun.
  replace k with (e + S (k - S e)) in Hrun by lia.
  rewrite seq_app, for_each_app in Hrun.
  destruct (for_each cycle (seq 0 e) (self0, w0)) as [[s w1]|] eqn:E1;
    [|discriminate].
  cbn [mbind result_bind] in Hrun.
  change (seq (0 + e) (S (k - S e)))
    with (e :: seq (S e) (k - S e)) in Hrun.
  cbn [for_each] in Hrun.
  destruct (cycle e (s, w1)) as [[s' w1']|] eqn:E2; [|discriminate].
  cbn [mbind result_bind] in Hrun.
  exists s, w1, s', w1'. split; [reflexivity|]. split; [exact E2|].
  apply loop_spec in E1 as (n1 & TR & TE & -> & _ & HTE & _); [|exact HL0].
  apply cycle_spec in E2 as (n & tr & te & -> & Hd & _);
    [|simpl; rewrite HL0; exact HTE].
  apply loop_from in Hrun as (n2 & TR2 & TE2 & ->);
    [|simpl; rewrite HL0, length_app; simpl; lia].
  simpl in *. rewrite HL0 in *. simpl in *.
  rewrite improves_app by (rewrite length_app; simpl; lia).
  exact Hd.
Qed.

Lemma run_loop `{Backend} (self0 : net_train) (w0 : world) (n : net)
    (self : net_train) (w : world) :
  run self0 w0 = Ok (n, (self, w)) →
  ∃ wl, for_each cycle (seq 0 (training_cycles self0)) (self0, w0)
        = Ok (self, wl).
Proof.
  unfold run. intros Hrun.
  step Hrun as [self1 w1] eqn Eloop.
  step Hrun as acc eqn Eacc. step Hrun as u eqn Eu.
  injection Hrun as _ <- _. eauto.
Qed.

(** C3: a run that starts from an empty history writes the "best"
    checkpoint at cycle [e] exactly when [e > 0] and the test loss of cycle
    [e] is strictly below [min] of the test losses of the cycles before it:
    in that case cycle [e] leaves the disk with the network of that cycle
    stored under the "best" path, and otherwise it leaves the disk as it
    found it.  Every cycle is recorded; on a runnable configuration the run
    returns. *)
Theorem best_checkpoint_rule `{Backend} (self0 : net_train) (w0 : world) :
  test_loss self0 = [] → best_epochs w0 = [] →
  (runnable self0 = true → is_ok (run self0 w0) = true) ∧
  ∀ n self w, run self0 w0 = Ok (n, (self, w)) →
    length (test_loss self) = training_cycles self0 ∧
    ∀ e, e < training_cycles self0 →
      let better :=
        0 < e ∧ ∃ cur m, test_loss self !! e = Some cur ∧
                         py_min (take e (test_loss self)) = Ok m ∧
                         SFltb cur m = true in
      (e ∈ best_epochs w ↔ better) ∧
      ∃ s w1 s' w1',
        for_each cycle (seq 0 e) (self0, w0) = Ok (s, w1) ∧
        cycle e (s, w1) = Ok (s', w1') ∧
        (better →
           disk w1' = <[best_path (savedir self0) := net_ s']> (disk w1)) ∧
        (¬ better → disk w1' = disk w1).
Proof.
  intros HL0 HB0. split; [by apply run_total|].
  intros n self w Hrun.
  destruct (run_loop _ _ _ _ _ Hrun) as [wl Hloop].
  apply run_spec in Hrun as (TR & TE & Hself & _ & HTE & Hb & _); [|exact HL0].
  assert (test_loss self = TE) as HL.
  { rewrite Hself. simpl. rewrite HL0. reflexivity. }
  rewrite HL. split; [exact HTE|].
  intros e He better. subst better. split.
  - rewrite Hb, HB0, app_nil_r, elem_of_best_log, improves_true.
    split; [intros [_ ?]; done | intros ?; split; [lia|done]].
  - destruct (loop_cycle_at self0 w0 _ e self wl HL0 He Hloop)
      as (s & w1 & s' & w1' & H1 & H2 & Hd).
    exists s, w1, s', w1'. split; [exact H1|]. split; [exact H2|].
    rewrite HL in Hd. rewrite Hd.
    destruct (improves TE e) eqn:Ei; split.
    + reflexivity.
    + intros Hx. destruct Hx. apply improves_true. exact Ei.
    + intros Hx. apply improves_true in Hx. congruence.
    + reflexivity.
Qed.

(** C7 (amended): after a run from an empty history and without an earlier
    "best" file, a "best" checkpoint exists exactly when some cycle
    improved; the test loss of the cycle that wrote it last is [min] of the
    whole history, and on a history without NaN this is at most every
    recorded test loss, earlier or later.  When cycle 0 holds a minimum of
    the history no "best" checkpoint is written. *)
Theorem best_checkpoint_is_minimum `{Backend} (self0 : net_train) (w0 : world)
    (n : net) (self : net_train) (w : world) :
  test_loss self0 = [] → best_epochs w0 = [] →
  disk w0 !! best_path (savedir self0) = None →
  run self0 w0 = Ok (n, (self, w)) →
  (is_Some (disk w !! best_path (savedir self0)) ↔ best_epochs w ≠ []) ∧
  (∀ b rest, best_epochs w = b :: rest →
     ∃ m, test_loss self !! b = Some m ∧ py_min (test_loss self) = Ok m ∧
          ((∀ x, x ∈ test_loss self → is_nan x = false) →
           ∀ x, x ∈ test_loss self → SFleb m x = true)) ∧
  (∀ x0, test_loss self !! 0 = Some x0 →
     (∀ x, x ∈ test_loss self → SFleb x0 x = true) →
     best_epochs w = [] ∧ disk w !! best_path (savedir self0) = None).
Proof.
  intros HL0 HB0 HD0 Hrun.
  apply run_spec in Hrun
    as (TR & TE & -> & _ & HTE & Hb & _ & He & Hne); [|exact HL0].
  simpl. rewrite HL0. simpl.
  rewrite HB0, app_nil_r in Hb. rewrite Hb.
  split; [|split].
  - split.
    + intros Hs Hnil. rewrite (He Hnil), HD0 in Hs. by destruct Hs.
    + exact Hne.
  - intros b rest Hlog.
    pose proof (best_log_head TE (training_cycles self0) ltac:(lia)) as Hh.
    rewrite Hlog in Hh. destruct Hh as (_ & m & Hm & Hbm).
    rewrite firstn_all2 in Hm by lia.
    exists m. split; [exact Hbm|]. split; [exact Hm|].
    intros Hnan. by apply py_min_least.
  - intros x0 H0 Hmin.
    assert (best_log TE (training_cycles self0) = []) as Hnil.
    { apply (no_improvement TE x0); [exact H0|exact Hmin|lia]. }
    split; [exact Hnil|]. rewrite (He Hnil). exact HD0.
Qed.

(** C9 (amended): the loop has no check on the losses.  On a runnable
    configuration the run returns after all [training_cycles] cycles
    whatever the losses are; a cycle that writes the "best" checkpoint has a
    test loss that is neither NaN nor +infinity. *)
Theorem non_finite_losses `{Backend} (self0 : net_train) (w0 : world) :
  test_loss self0 = [] → best_epochs w0 = [] →
  (runnable self0 = true →
     ∃ n self w, run self0 w0 = Ok (n, (self, w)) ∧
       length (train_loss self)
       = length (train_loss self0) + training_cycles self0 ∧
       length (test_loss self) = training_cycles self0) ∧
  (∀ n self w, run self0 w0 = Ok (n, (self, w)) →
     ∀ e, e ∈ best_epochs w →
       ∃ x, test_loss self !! e = Some x ∧ is_nan x = false ∧ x ≠ pos_inf).
Proof.
  intros HL0 HB0. split.
  - intros Hr. pose proof (run_total self0 w0 HL0 Hr) as Hok.
    destruct (run self0 w0) as [[n [self w]]|] eqn:Hrun; [|discriminate].
    exists n, self, w. split; [reflexivity|].
    apply run_spec in Hrun as (TR & TE & -> & HTR & HTE & _); [|exact HL0].
    simpl. rewrite HL0, length_app. simpl. lia.
  - intros n self w Hrun e He.
    apply run_spec in Hrun as (TR & TE & -> & _ & _ & Hb & _); [|exact HL0].
    rewrite Hb, HB0, app_nil_r in He.
    apply elem_of_best_log in He as [_ Hi].
    apply improves_true in Hi as (_ & cur & m & Hcur & _ & Hlt).
    apply SFltb_not_nan in Hlt as (Hn & _ & Hinf).
    exists cur. simpl. rewrite HL0. simpl. done.
Qed.

(** C7, as stated, fails: with test losses 1, 2 the minimum is at cycle 0;
    the run completes and leaves no "best" checkpoint file. *)
Lemma minimum_at_cycle_0_no_best :
  match run (example_trainer [fl 1; fl 1] [fl 1; fl 2] 2) empty_world with
  | Ok (_, (self, w)) =>
      test_loss self = [fl 1; fl 2] ∧
      disk w !! best_path "./" = None ∧
      disk w !! final_path "./" = Some 2
  | Raise _ => False
  end.
Proof. vm_compute. done. Qed.

(** C9, as stated, fails: NaN losses at cycle 0 do not stop the run, which
    completes its three cycles and records the NaN in both histories. *)
Lemma nan_loss_does_not_abort :
  match run (example_trainer [S754_nan; fl 1; fl 1] [S754_nan; fl 1; fl 1] 3)
          empty_world with
  | Ok (_, (self, w)) =>
      train_loss self = [S754_nan; fl 1; fl 1] ∧
      test_loss self = [S754_nan; fl 1; fl 1] ∧
      disk w !! final_path "./" = Some 3
  | Raise _ => False
  end.
Proof. vm_compute. done. Qed.

(** A test loss of -infinity is written as "best". *)
Example neg_inf_loss_is_persisted :
  match run (example_trainer [fl 1; fl 1] [fl 1; neg_inf] 2) empty_world with
  | Ok (_, (self, w)) =>
      test_loss self = [fl 1; neg_inf] ∧ best_epochs w = [1] ∧
      disk w !! best_path "./" = Some 2
  | Raise _ => False
  end.
Proof. vm_compute. done. Qed.

(** * The statements at concrete inputs *)


Lemma constructor_never_completes_witness :
  net_train_init (H := scripted [] []) default_args tt empty_world
  = Raise (NameError "plot_training_history") ∧
  net_train_init (H := scripted [] []) (args_with "resnet" "dice") tt
    empty_world
  = Raise (NotImplementedError msg_models) ∧
  net_train_init (H := scripted [] []) (args_with "dilnet" "mse") tt
    empty_world
  = Raise (NotImplementedError msg_losses).
Proof.
  split; [|split].
  - destruct (constructor_never_completes (H := scripted [] []) default_args
                tt empty_world) as (_ & _ & Hname & _).
    eapply Hname.
    + vm_compute. reflexivity.
    + reflexivity.
    + reflexivity.
    + right. vm_compute. split; lia.
  - destruct (constructor_never_completes (H := scripted [] [])
                (args_with "resnet" "dice") tt empty_world)
      as (_ & _ & _ & Hmodel & _).
    eapply Hmodel.
    + vm_compute. reflexivity.
    + discriminate.
    + discriminate.
  - destruct (constructor_never_completes (H := scripted [] [])
                (args_with "dilnet" "mse") tt empty_world)
      as (_ & _ & _ & _ & Hloss).
    eapply Hloss.
    + vm_compute. reflexivity.
    + right. reflexivity.
    + discriminate.
    + intros [Hce _]. discriminate Hce.
Defined.


Lemma decode_independent_unsupported_witness :
  decode (H := trivial_gp) (DklGPR (H := trivial_gp) false tt) [1; 2]
  = Raise UnsupportedMode.
Proof.
  apply (decode_independent_unsupported (H := trivial_gp)). reflexivity.
Defined.

Lemma tiling_paths_agree_witness :
  ∃ a b, run_whole_stack long_stack = Ok a ∧ run_per_image long_stack = Ok b ∧
         same_array a b.
Proof.
  apply (tiling_paths_agree (H := identity_model) long_stack).
  - reflexivity.
  - intros i Hi. split; [reflexivity|]. intros; reflexivity.
Defined.

Lemma cardinality_from_training_labels_witness :
  channels (normalize (image := nat) (PyList [[7]]) (PyList [[mask01]])
              (PyList [[8]]) (PyList [[mask0]]) 1)
  = channels (normalize (image := nat) (PyList [[7]]) (PyList [[mask01]])
                (PyList [[8]]) (PyList [[mask01]]) 1).
Proof.
  apply (cardinality_from_training_labels (image := nat)); reflexivity.
Defined.

Lemma best_checkpoint_rule_witness :
  let ex := example_trainer [fl 1; fl 1; fl 1] [fl 3; fl 2; fl 5] 3 in
  (runnable ex = true → is_ok (run ex empty_world) = true) ∧
  ∀ n self w, run ex empty_world = Ok (n, (self, w)) →
    length (test_loss self) = 3 ∧
    ∀ e, e < 3 →
      let better :=
        0 < e ∧ ∃ cur m, test_loss self !! e = Some cur ∧
                         py_min (take e (test_loss self)) = Ok m ∧
                         SFltb cur m = true in
      (e ∈ best_epochs w ↔ better) ∧
      ∃ s w1 s' w1',
        for_each cycle (seq 0 e) (ex, empty_world) = Ok (s, w1) ∧
        cycle e (s, w1) = Ok (s', w1') ∧
        (better → disk w1' = <[best_path "./" := net_ s']> (disk w1)) ∧
        (¬ better → disk w1' = disk w1).
Proof.
  intros ex.
  apply (best_checkpoint_rule
           (H := scripted [fl 1; fl 1; fl 1] [fl 3; fl 2; fl 5]) ex
           empty_world); reflexivity.
Defined.

Lemma best_checkpoint_is_minimum_witness :
  let ex := example_trainer [fl 1; fl 1; fl 1] [fl 3; fl 2; fl 5] 3 in
  ∃ n self w, run ex empty_world = Ok (n, (self, w)) ∧
    (is_Some (disk w !! best_path "./") ↔ best_epochs w ≠ []) ∧
    (∀ b rest, best_epochs w = b :: rest →
       ∃ m, test_loss self !! b = Some m ∧ py_min (test_loss self) = Ok m ∧
            ((∀ x, x ∈ test_loss self → is_nan x = false) →
             ∀ x, x ∈ test_loss self → SFleb m x = true)) ∧
    (∀ x0, test_loss self !! 0 = Some x0 →
       (∀ x, x ∈ test_loss self → SFleb x0 x = true) →
       best_epochs w = [] ∧ disk w !! best_path "./" = None).
Proof.
  intros ex.
  assert (is_ok (run ex empty_world) = true) as Hok
    by (vm_compute; reflexivity).
  destruct (run ex empty_world) as [[n [self w]]|] eqn:Hrun; [|discriminate].
  exists n, self, w. split; [reflexivity|].
  apply (best_checkpoint_is_minimum
           (H := scripted [fl 1; fl 1; fl 1] [fl 3; fl 2; fl 5]) ex
           empty_world n self w); [reflexivity..|exact Hrun].
Defined.

Lemma non_finite_losses_witness :
  let ex := example_trainer [S754_nan; fl 1] [S754_nan; pos_inf] 2 in
  (runnable ex = true →
     ∃ n self w, run ex empty_world = Ok (n, (self, w)) ∧
       length (train_loss self) = 0 + 2 ∧ length (test_loss self) = 2) ∧
  (∀ n self w, run ex empty_world = Ok (n, (self, w)) →
     ∀ e, e ∈ best_epochs w →
       ∃ x, test_loss self !! e = Some x ∧ is_nan x = false ∧ x ≠ pos_inf).
Proof.
  intros ex.
  apply (non_finite_losses
           (H := scripted [S754_nan; fl 1] [S754_nan; pos_inf]) ex
           empty_world); reflexivity.
Defined.

(** * Further properties of the batch normaliser *)

Lemma types_agree_decide {A B C D : Type} (a : pydata A) (b : pydata B)
    (c : pydata C) (d : pydata D) :
  bool_decide (type_of a = type_of b) && bool_decide (type_of b = type_of c)
  && bool_decide (type_of c = type_of d) = true
  ↔ type_of a = type_of b ∧ type_of b = type_of c ∧ type_of c = type_of d.
Proof.
  rewrite !andb_true_iff, !bool_decide_eq_true. tauto.
Qed.

Lemma class_cardinality_errors (s : gset nat) (e : exn) :
  class_cardinality s = Raise e →
  e = InconsistentClasses ∨ e = MissingBackgroundClass ∨ e = KeyError.
Proof.
  unfold class_cardinality.
  destruct (size s =? 1); simpl; [|intros [= <-]; by left].
  destruct (elements s) as [|k rest]; [intros [= <-]; auto|].
  destruct (k =? 1); simpl; [intros [= <-]; auto | discriminate].
Qed.

Lemma np_split_errors {A : Type} (ary : list A) (k : nat) (e : exn) :
  np_split ary k = Raise e → ∃ msg, e = ValueError msg.
Proof.
  unfold np_split. destruct (k =? 0); [intros [= <-]; eauto|].
  destruct (negb _); [intros [= <-]; eauto | discriminate].
Qed.

(** X1: The format assertion fails exactly when the four containers are not of
    one type: no later step raises that error. *)
Theorem format_mismatch_iff {image : Type} (ia : pydata image)
    (la : pydata label) (ita : pydata image) (lta : pydata label) (b : nat) :
  normalize ia la ita lta b = Raise FormatMismatch
  ↔ ¬ (type_of ia = type_of la ∧ type_of la = type_of ita ∧
       type_of ita = type_of lta).
Proof.
  rewrite <- types_agree_decide. unfold normalize.
  destruct (bool_decide _ && bool_decide _ && bool_decide _) eqn:Hty;
    simpl; [|split; [intros _ ?; done | reflexivity]].
  split; [|done]. intros Hfail. exfalso.
  destruct ia as [i|i|i|?], la as [l|l|l|?], ita as [it|it|it|?],
    lta as [lt|lt|lt|?]; simpl in Hfail; try discriminate.
  - destruct (class_cardinality _) as [k|e] eqn:E; [discriminate|].
    simpl in Hfail. apply class_cardinality_errors in E.
    injection Hfail as ->. destruct E as [E|[E|E]]; discriminate.
  - destruct (class_cardinality _) as [k|e] eqn:E; [discriminate|].
    simpl in Hfail. apply class_cardinality_errors in E.
    injection Hfail as ->. destruct E as [E|[E|E]]; discriminate.
  - destruct (np_split i _) as [?|e] eqn:E1; simpl in Hfail;
      [|apply np_split_errors in E1 as [? ->]; discriminate].
    destruct (np_split l _) as [?|e] eqn:E2; simpl in Hfail;
      [|apply np_split_errors in E2 as [? ->]; discriminate].
    destruct (np_split it _) as [?|e] eqn:E3; simpl in Hfail;
      [|apply np_split_errors in E3 as [? ->]; discriminate].
    destruct (np_split lt _) as [?|e] eqn:E4; simpl in Hfail;
      [|apply np_split_errors in E4 as [? ->]; discriminate].
    destruct (class_cardinality _) as [k|e] eqn:E; [discriminate|].
    simpl in Hfail. apply class_cardinality_errors in E.
    injection Hfail as ->. destruct E as [E|[E|E]]; discriminate.
Qed.

Lemma format_mismatch_iff_witness :
  normalize (image := nat) (PyList [[1]]) (PyDict ∅) (PyList [[1]])
    (PyList [[mask01]]) 1 = Raise FormatMismatch.
Proof.
  apply (format_mismatch_iff (image := nat)). intros (H1 & _). discriminate.
Defined.

(** X2: Four containers of one type that is neither list, dict nor array are
    refused with [NotImplementedError]. *)
Theorem unsupported_container {image : Type} (ia : pydata image)
    (la : pydata label) (ita : pydata image) (lta : pydata label) (b : nat)
    (name : string) :
  type_of ia = type_of la → type_of la = type_of ita →
  type_of ita = type_of lta → type_of la = TOther name →
  normalize ia la ita lta b = Raise (NotImplementedError msg_data).
Proof.
  intros H1 H2 H3 Hn. unfold normalize.
  rewrite (proj2 (types_agree_decide ia la ita lta)) by done. simpl.
  destruct la; try discriminate. rewrite Hn in *.
  destruct ia; try discriminate. reflexivity.
Qed.

Lemma unsupported_container_witness :
  normalize (image := nat) (PyOther "tuple") (PyOther "tuple")
    (PyOther "tuple") (PyOther "tuple") 4
  = Raise (NotImplementedError msg_data).
Proof.
  apply (unsupported_container (image := nat) _ _ _ _ 4 "tuple");
    reflexivity.
Defined.

Lemma chunks_concat {A : Type} (size k : nat) (ary : list A) :
  size * k = length ary → concat (chunks size k ary) = ary.
Proof.
  revert ary. induction k as [|k IH]; intros ary Hlen; simpl.
  - destruct ary; [reflexivity|simpl in Hlen; lia].
  - rewrite IH; [apply take_drop|]. rewrite length_drop. lia.
Qed.

Lemma np_split_concat {A : Type} (ary : list A) (k : nat)
    (cs : list (list A)) :
  np_split ary k = Ok cs →
  concat cs = ary ∧ length cs = k ∧
  Forall (λ c, length c = length ary / k) cs.
Proof.
  unfold np_split. destruct (k =? 0) eqn:E0; [discriminate|].
  destruct (length ary mod k =? 0) eqn:Em; [|discriminate].
  simpl. intros [= <-]. apply Nat.eqb_neq in E0. apply Nat.eqb_eq in Em.
  pose proof (Nat.div_mod_eq (length ary) k) as Hdm.
  split; [apply chunks_concat; lia|]. split; [apply chunks_length|].
  apply chunks_sizes. lia.
Qed.

(** X3: When the bulk form is accepted, no sample is dropped or moved by the
    split: the batches of each of the four arrays, put end to end, are the
    array; training arrays come in [n / b] batches and test arrays in
    [n_test / b] batches. *)
Theorem bulk_split_keeps_samples {image : Type} (imgs imgs_test : list image)
    (labs labs_test : list label) (b : nat) (d : dataset image) :
  normalize (NdArray imgs) (NdArray labs) (NdArray imgs_test)
    (NdArray labs_test) b = Ok d →
  ∃ ia la ita lta,
    ds_images_all d = BList ia ∧ ds_labels_all d = BList la ∧
    ds_images_test_all d = BList ita ∧ ds_labels_test_all d = BList lta ∧
    concat ia = imgs ∧ concat la = labs ∧
    concat ita = imgs_test ∧ concat lta = labs_test ∧
    length ia = length labs / b ∧ length la = length labs / b ∧
    length ita = length labs_test / b ∧ length lta = length labs_test / b.
Proof.
  unfold normalize. simpl. intros Hn.
  destruct (np_split imgs _) as [ia|] eqn:E1; [|discriminate]. simpl in Hn.
  destruct (np_split labs _) as [la|] eqn:E2; [|discriminate]. simpl in Hn.
  destruct (np_split imgs_test _) as [ita|] eqn:E3; [|discriminate].
  simpl in Hn.
  destruct (np_split labs_test _) as [lta|] eqn:E4; [|discriminate].
  simpl in Hn.
  destruct (class_cardinality _) as [k|]; [|discriminate]. simpl in Hn.
  injection Hn as <-. simpl.
  apply np_split_concat in E1 as (? & ? & _), E2 as (? & ? & _),
    E3 as (? & ? & _), E4 as (? & ? & _).
  exists ia, la, ita, lta. repeat split; assumption.
Qed.

Lemma bulk_split_keeps_samples_witness :
  ∃ ia la ita lta,
    BList [[0; 1; 2; 3; 4]; [5; 6; 7; 8; 9]] = BList ia ∧
    BList [replicate 5 mask01; replicate 5 mask01] = BList la ∧
    BList [[0; 1; 2; 3]] = BList ita ∧
    BList [replicate 4 mask01] = BList lta ∧
    concat ia = seq 0 10 ∧ concat la = replicate 10 mask01 ∧
    concat ita = seq 0 4 ∧ concat lta = replicate 4 mask01 ∧
    length ia = 10 / 4 ∧ length la = 10 / 4 ∧
    length ita = 4 / 4 ∧ length lta = 4 / 4.
Proof.
  exact (bulk_split_keeps_samples (image := nat) (seq 0 10) (seq 0 4)
           (replicate 10 mask01) (replicate 4 mask01) 4 _ eq_refl).
Defined.

(** X4: A batch size of 0, or larger than the number of training samples,
    makes the bulk form fail in [np.split]. *)
Theorem bulk_batch_size_too_large {image : Type} (imgs imgs_test : list image)
    (labs labs_test : list label) (b : nat) :
  b = 0 ∨ length labs < b →
  normalize (NdArray imgs) (NdArray labs) (NdArray imgs_test)
    (NdArray labs_test) b
  = Raise (ValueError "number sections must be larger than 0.").
Proof.
  intros Hb. unfold normalize. simpl.
  assert (length labs / b = 0) as ->.
  { destruct Hb as [->|Hlt]; [reflexivity|by apply Nat.div_small]. }
  reflexivity.
Qed.

Lemma bulk_batch_size_too_large_witness :
  normalize (image := nat) (NdArray [1; 2; 3]) (NdArray (replicate 3 mask01))
    (NdArray [4; 5; 6]) (NdArray (replicate 3 mask01)) 32
  = Raise (ValueError "number sections must be larger than 0.").
Proof.
  apply (bulk_batch_size_too_large (image := nat)). right. simpl. lia.
Defined.

Lemma class_cardinality_not_2 (s : gset nat) (k : nat) :
  class_cardinality s = Ok k → k ≠ 2.
Proof.
  unfold class_cardinality. destruct (size s =? 1); [simpl|discriminate].
  destruct (elements s) as [|k0 rest]; [discriminate|].
  destruct (k0 =? 1) eqn:E1; [discriminate|]. simpl.
  apply Nat.eqb_neq in E1.
  destruct (k0 =? 2) eqn:E2; intros [= <-].
  - apply Nat.eqb_eq in E2. lia.
  - apply Nat.eqb_neq in E2. exact E2.
Qed.

Lemma normalize_channels {image : Type} (ia : pydata image)
    (la : pydata label) (ita : pydata image) (lta : pydata label) (b : nat)
    (d : dataset image) :
  normalize ia la ita lta b = Ok d →
  ∃ s, class_cardinality s = Ok (ds_num_classes d).
Proof.
  unfold normalize. destruct (py_assert _ _); [simpl|discriminate].
  destruct ia as [i|i|i|?], la as [l|l|l|?], ita as [it|it|it|?],
    lta as [lt|lt|lt|?]; simpl; try discriminate.
  - destruct (class_cardinality _) as [k|] eqn:E; [|discriminate].
    intros [= <-]. eauto.
  - destruct (class_cardinality _) as [k|] eqn:E; [|discriminate].
    intros [= <-]. eauto.
  - destruct (np_split i _); [simpl|discriminate].
    destruct (np_split l _); [simpl|discriminate].
    destruct (np_split it _); [simpl|discriminate].
    destruct (np_split lt _); [simpl|discriminate].
    destruct (class_cardinality _) as [k|] eqn:E; [|discriminate].
    intros [= <-]. eauto.
Qed.

(** X5: The normaliser never yields 2 output channels, so for every non-empty
    channel count it yields the cross-entropy loss can be selected: the
    binary one for 1 channel, the multiclass one for more than 2; the Dice
    loss can always be selected. *)
Theorem loss_selection_after_normalize {image : Type} (ia : pydata image)
    (la : pydata label) (ita : pydata image) (lta : pydata label) (b : nat)
    (d : dataset image) :
  normalize ia la ita lta b = Ok d →
  ds_num_classes d ≠ 2 ∧
  select_loss "dice" (ds_num_classes d) = Ok DiceLoss ∧
  (ds_num_classes d = 1 →
     select_loss "ce" (ds_num_classes d) = Ok BCEWithLogitsLoss) ∧
  (1 < ds_num_classes d →
     select_loss "ce" (ds_num_classes d) = Ok CrossEntropyLoss) ∧
  (ds_num_classes d = 0 →
     select_loss "ce" (ds_num_classes d)
     = Raise (NotImplementedError msg_losses)).
Proof.
  intros Hn. apply normalize_channels in Hn as [s Hs].
  apply class_cardinality_not_2 in Hs.
  split; [exact Hs|]. split; [reflexivity|].
  unfold select_loss. simpl. split; [|split].
  - intros ->. reflexivity.
  - intros Hk. destruct (ds_num_classes d =? 1) eqn:E1;
      [apply Nat.eqb_eq in E1; lia|].
    destruct (2 <? ds_num_classes d) eqn:E2; [reflexivity|].
    apply Nat.ltb_ge in E2. lia.
  - intros ->. reflexivity.
Qed.

Lemma loss_selection_after_normalize_witness :
  1 ≠ 2 ∧
  select_loss "dice" 1 = Ok DiceLoss ∧
  (1 = 1 → select_loss "ce" 1 = Ok BCEWithLogitsLoss) ∧
  (1 < 1 → select_loss "ce" 1 = Ok CrossEntropyLoss) ∧
  (1 = 0 → select_loss "ce" 1 = Raise (NotImplementedError msg_losses)).
Proof.
  exact (loss_selection_after_normalize (image := nat) (PyList [[7]])
           (PyList [[mask01]]) (PyList [[8]]) (PyList [[mask01]]) 1 _
           eq_refl).
Defined.

(** X6: The channel count depends on the training batches only through the set
    of their label arrays: reordering or repeating batches of a list does
    not change the outcome. *)
Theorem channels_batch_order {image : Type}
    (imgs imgs' imgs_test imgs_test' : list (list image))
    (labs labs' labs_test labs_test' : list (list label)) (b b' : nat) :
  (∀ x, x ∈ labs ↔ x ∈ labs') →
  channels (normalize (PyList imgs) (PyList labs) (PyList imgs_test)
              (PyList labs_test) b)
  = channels (normalize (PyList imgs') (PyList labs') (PyList imgs_test')
                (PyList labs_test') b').
Proof.
  intros Hsame. rewrite !normalize_list.
  assert (class_counts labs = class_counts labs') as ->.
  { apply set_eq. intros k. unfold class_counts.
    rewrite !elem_of_list_to_set, !list_elem_of_fmap.
    split; intros (x & -> & Hx); exists x; (split; [reflexivity|]);
      by apply Hsame. }
  unfold channels. destruct (class_cardinality _); reflexivity.
Qed.

Lemma channels_batch_order_witness :
  channels (normalize (image := nat) (PyList [[1]; [2]])
              (PyList [[mask01]; [mask0; mask01]]) (PyList [[3]])
              (PyList [[mask01]]) 1)
  = channels (normalize (image := nat) (PyList [[2]; [1]; [2]])
                (PyList [[mask0; mask01]; [mask01]; [mask0; mask01]])
                (PyList [[3]]) (PyList [[mask0]]) 2).
Proof.
  apply (channels_batch_order (image := nat)).
  intros x. rewrite !elem_of_cons, !elem_of_nil. tauto.
Defined.

(** * [dataloader] *)

(** X8: A batch number outside a list of batches raises [IndexError], a key
    that a dictionary of batches does not have raises [KeyError]; the
    images are looked up before the labels. *)
Theorem dataloader_missing_batch `{Backend} (self : net_train)
    (k : nat) :
  (∀ (li : list (list image)) (labs : batches label),
     length li ≤ k → dataloader self (BList li) labs k = Raise IndexError) ∧
  (∀ (mi : gmap nat (list image)) (labs : batches label),
     mi !! k = None → dataloader self (BDict mi) labs k = Raise KeyError) ∧
  (∀ (imgs : batches image) (ll : list (list label)),
     is_ok (getitem imgs k) = true → length ll ≤ k →
     dataloader self imgs (BList ll) k = Raise IndexError) ∧
  (∀ (imgs : batches image) (ml : gmap nat (list label)),
     is_ok (getitem imgs k) = true → ml !! k = None →
     dataloader self imgs (BDict ml) k = Raise KeyError).
Proof.
  unfold dataloader. repeat split.
  - intros li labs Hk. simpl. rewrite lookup_ge_None_2 by exact Hk.
    reflexivity.
  - intros mi labs Hk. simpl. rewrite Hk. reflexivity.
  - intros imgs ll Hi Hk. destruct (getitem imgs k); [|discriminate].
    simpl. rewrite lookup_ge_None_2 by exact Hk. reflexivity.
  - intros imgs ml Hi Hk. destruct (getitem imgs k); [|discriminate].
    simpl. rewrite Hk. reflexivity.
Qed.

Lemma dataloader_missing_batch_witness :
  dataloader (H := scripted [] []) (example_trainer [] [] 1)
    (BList [[0; 1]]) (BList [[mask01]]) 1 = Raise IndexError.
Proof.
  destruct (dataloader_missing_batch (H := scripted [] [])
              (example_trainer [] [] 1) 1) as (Hl & _).
  apply Hl. simpl. lia.
Defined.

(** * Further properties of the training run *)

Lemma prints_at_printed `{Backend} (self : net_train) (e : nat) (p : bool) :
  prints_at self e = Ok p → p = printed (print_loss self) e.
Proof.
  unfold prints_at, printed. destruct (e =? 0); [intros [= <-]; reflexivity|].
  destruct (print_loss self =? 0); [discriminate|]. intros [= <-]. reflexivity.
Qed.

(** What one cycle does to the trainer, the console and the disk. *)
Lemma cycle_effects `{Backend} (e : nat) (self self' : net_train)
    (w w' : world) :
  cycle e (self, w) = Ok (self', w') →
  ∃ n tr te,
    self' = evolve self n [tr] [te] ∧
    console w' = console w ++
      (if printed (print_loss self) e then [EpochLine (e + 1) tr te] else []) ∧
    (disk w' = disk w ∨
     disk w' = <[best_path (savedir self) := n]> (disk w)).
Proof.
  unfold cycle. intros Hc.
  step Hc as bn eqn Ebn. step Hc as [images labels] eqn Edl.
  unfold train_step in Hc.
  destruct (train_pass _ _ _ _) as [n tr].
  set (s1 := append_train_loss (set_net self n) tr) in *.
  step Hc as bn_ eqn Ebn_. step Hc as [images_ labels_] eqn Edl_.
  set (te := test_step s1 images_ labels_) in *.
  set (s2 := append_test_loss s1 te) in *.
  step Hc as p eqn Ep. step Hc as w1 eqn Ew. step Hc as b eqn Eb.
  injection Hc as <- <-.
  apply prints_at_printed in Ep. change (print_loss s2) with (print_loss self) in Ep.
  assert (disk w1 = disk w ∧ best_epochs w1 = best_epochs w ∧
          console w1 = console w ++
            (if p then [EpochLine (e + 1) tr te] else [])) as (Hd & Hb & Hco).
  { destruct p.
    - change (train_loss s2) with (train_loss self ++ [tr]) in Ew.
      change (test_loss s2) with (test_loss self ++ [te]) in Ew.
      rewrite !py_last_snoc in Ew. cbn [mbind result_bind] in Ew.
      injection Ew as <-. done.
    - injection Ew as <-. rewrite app_nil_r. done. }
  exists n, tr, te. split; [reflexivity|]. rewrite <- Ep.
  destruct b; simpl; rewrite ?Hd; auto.
Qed.

Lemma epoch_lines_S (p : nat) (TR TE : list float) (k : nat) :
  epoch_lines p TR TE (S k)
  = epoch_lines p TR TE k ++
    (if printed p k
     then match TR !! k, TE !! k with
          | Some a, Some b => [EpochLine (k + 1) a b]
          | _, _ => []
          end
     else []).
Proof.
  unfold epoch_lines. rewrite seq_S, flat_map_app. simpl.
  rewrite app_nil_r. reflexivity.
Qed.

Lemma epoch_lines_app (p : nat) (TR TE tr te : list float) (k : nat) :
  k ≤ length TR → k ≤ length TE →
  epoch_lines p (TR ++ tr) (TE ++ te) k = epoch_lines p TR TE k.
Proof.
  intros H1 H2. unfold epoch_lines. rewrite !flat_map_concat_map.
  f_equal. apply map_ext_in. intros e He%in_seq.
  rewrite !lookup_app_l by lia. reflexivity.
Qed.

Lemma loop_effects `{Backend} (self0 : net_train) (w0 : world) (k : nat)
    (self : net_train) (w : world) :
  for_each cycle (seq 0 k) (self0, w0) = Ok (self, w) →
  ∃ n TR TE,
    self = evolve self0 n TR TE ∧ length TR = k ∧ length TE = k ∧
    console w = console w0 ++ epoch_lines (print_loss self0) TR TE k ∧
    (∀ p, p ≠ best_path (savedir self0) → disk w !! p = disk w0 !! p).
Proof.
  revert self w. induction k as [|k IH]; intros self w Hrun.
  - simpl in Hrun. injection Hrun as <- <-.
    exists (net_ self0), [], []. rewrite evolve_nil. simpl.
    rewrite app_nil_r. done.
  - rewrite seq_S, for_each_app in Hrun. simpl in Hrun.
    destruct (for_each cycle (seq 0 k) (self0, w0)) as [[self1 w1]|] eqn:E1;
      [|discriminate].
    cbn [mbind result_bind] in Hrun.
    destruct (cycle k (self1, w1)) as [[self2 w2]|] eqn:E2; [|discriminate].
    cbn [mbind result_bind] in Hrun. injection Hrun as <- <-.
    destruct (IH _ _ eq_refl) as (n1 & TR & TE & -> & HTR & HTE & Hco & Hp).
    apply cycle_effects in E2 as (n & tr & te & -> & Hco2 & Hd2).
    simpl in Hco2, Hd2.
    exists n, (TR ++ [tr]), (TE ++ [te]).
    rewrite evolve_evolve, !length_app. simpl.
    split; [reflexivity|]. split; [lia|]. split; [lia|]. split.
    + rewrite Hco2, Hco, epoch_lines_S, <- app_assoc.
      rewrite epoch_lines_app by lia.
      rewrite !lookup_app_r by lia. rewrite HTR, HTE, Nat.sub_diag.
      reflexivity.
    + intros p Hne. destruct Hd2 as [->| ->]; [by apply Hp|].
      rewrite lookup_insert_ne by done. by apply Hp.
Qed.

Lemma run_effects `{Backend} (self0 : net_train) (w0 : world) (n : net)
    (self : net_train) (w : world) :
  run self0 w0 = Ok (n, (self, w)) →
  ∃ TR TE m,
    self = evolve self0 n TR TE ∧
    length TR = training_cycles self0 ∧ length TE = training_cycles self0 ∧
    eval_mean self = Ok m ∧
    console w = console w0
      ++ epoch_lines (print_loss self0) TR TE (training_cycles self0)
      ++ [EvalLine m]
      ++ (if plot_training_history self0
          then [PlotLosses (train_loss self) (test_loss self)] else []) ∧
    disk w !! final_path (savedir self0) = Some n ∧
    (∀ p, p ≠ best_path (savedir self0) → p ≠ final_path (savedir self0) →
          disk w !! p = disk w0 !! p).
Proof.
  unfold run. intros Hrun.
  step Hrun as [self1 w1] eqn Eloop.
  apply loop_effects in Eloop as (n1 & TR & TE & -> & HTR & HTE & Hco & Hp).
  step Hrun as acc eqn Eacc. step Hrun as u eqn Eu.
  injection Hrun as <- <- <-.
  exists TR, TE, (float_div acc (float_of_nat (py_len (images_test_all self0)))).
  split; [reflexivity|]. split; [exact HTR|]. split; [exact HTE|].
  split.
  { unfold eval_mean. rewrite Eacc. cbn [mbind result_bind].
    change (images_test_all (evolve self0 n1 TR TE))
      with (images_test_all self0) in Eu |- *.
    rewrite Eu. reflexivity. }
  change (plot_training_history (evolve self0 n1 TR TE))
    with (plot_training_history self0).
  change (savedir (evolve self0 n1 TR TE)) with (savedir self0).
  change (net_ (evolve self0 n1 TR TE)) with n1.
  destruct (plot_training_history self0); simpl; rewrite Hco.
  - split; [by rewrite <- !app_assoc|]. split; [apply lookup_insert_eq|].
    intros p H1 H2. rewrite lookup_insert_ne by done. by apply Hp.
  - split; [by rewrite <- !app_assoc|].
    split; [apply lookup_insert_eq|].
    intros p H1 H2. rewrite lookup_insert_ne by done. by apply Hp.
Qed.

(** X9: A completed run leaves the trainer as it was, but for the network and
    for exactly [training_cycles] new entries at the end of each loss
    history: the histories only grow and the configuration is not touched. *)
Theorem run_appends_histories `{Backend} (self0 : net_train) (w0 : world)
    (n : net) (self : net_train) (w : world) :
  run self0 w0 = Ok (n, (self, w)) →
  ∃ TR TE,
    self = evolve self0 n TR TE ∧
    train_loss self = train_loss self0 ++ TR ∧
    test_loss self = test_loss self0 ++ TE ∧
    length TR = training_cycles self0 ∧ length TE = training_cycles self0.
Proof.
  intros Hrun.
  apply run_effects in Hrun as (TR & TE & m & -> & HTR & HTE & _).
  exists TR, TE. done.
Qed.

(** X10: A completed run writes the final checkpoint: the file holds the network
    that [run] returns, which is the network of the trainer; no file other
    than the two checkpoints is written. *)
Theorem run_final_checkpoint `{Backend} (self0 : net_train) (w0 : world)
    (n : net) (self : net_train) (w : world) :
  run self0 w0 = Ok (n, (self, w)) →
  disk w !! final_path (savedir self0) = Some n ∧ net_ self = n ∧
  final_path (savedir self0) ≠ best_path (savedir self0) ∧
  (∀ p, p ≠ best_path (savedir self0) → p ≠ final_path (savedir self0) →
        disk w !! p = disk w0 !! p).
Proof.
  intros Hrun.
  apply run_effects in Hrun as (TR & TE & m & -> & _ & _ & _ & _ & Hf & Hp).
  split; [exact Hf|]. split; [reflexivity|]. split; [|exact Hp].
  intros Heq. by apply (best_final_distinct (savedir self0)).
Qed.

Lemma kind_of_epoch_lines (p : nat) (TR TE : list float) (k : nat) :
  k ≤ length TR → k ≤ length TE →
  kind_of <$> epoch_lines p TR TE k
  = (λ e, Progress (e + 1)) <$> List.filter (printed p) (seq 0 k).
Proof.
  induction k as [|k IH]; intros H1 H2; [reflexivity|].
  rewrite epoch_lines_S, seq_S, List.filter_app, !fmap_app, IH by lia.
  f_equal. simpl.
  destruct (lookup_lt_is_Some_2 TR k ltac:(lia)) as [a ->].
  destruct (lookup_lt_is_Some_2 TE k ltac:(lia)) as [b ->].
  destruct (printed p k); reflexivity.
Qed.

(** X11: The console of a completed run: a progress line for cycle 0 and
    for every cycle [e] with [(e + 1) mod print_loss = 0], each numbered
    [e + 1], in the order of the cycles; then the line of the final
    evaluation; then the plot of the two loss histories when
    [plot_training_history] is set.  Nothing else is shown.  (The loss
    values on the lines, which the code rounds for display, are left
    out.) *)
Theorem run_console `{Backend} (self0 : net_train) (w0 : world)
    (n : net) (self : net_train) (w : world) :
  run self0 w0 = Ok (n, (self, w)) →
  ∃ lines,
    console w = console w0 ++ lines ∧
    kind_of <$> lines
    = ((λ e, Progress (e + 1)) <$>
         List.filter (printed (print_loss self0))
           (seq 0 (training_cycles self0)))
      ++ [Evaluation]
      ++ (if plot_training_history self0
          then [Plot (train_loss self) (test_loss self)] else []).
Proof.
  intros Hrun.
  apply run_effects in Hrun as (TR & TE & m & -> & HTR & HTE & _ & Hco & _).
  eexists. split; [exact Hco|].
  rewrite !fmap_app, kind_of_epoch_lines by lia.
  destruct (plot_training_history self0); reflexivity.
Qed.

Lemma run_appends_histories_witness :
  let ex := example_trainer [fl 1; fl 1; fl 1] [fl 3; fl 2; fl 5] 3 in
  ∃ n self w, run ex empty_world = Ok (n, (self, w)) ∧
    ∃ TR TE,
      self = evolve ex n TR TE ∧
      train_loss self = [] ++ TR ∧ test_loss self = [] ++ TE ∧
      length TR = 3 ∧ length TE = 3.
Proof.
  intros ex.
  assert (is_ok (run ex empty_world) = true) as Hok
    by (vm_compute; reflexivity).
  destruct (run ex empty_world) as [[n [self w]]|] eqn:Hrun; [|discriminate].
  exists n, self, w. split; [reflexivity|].
  exact (run_appends_histories
           (H := scripted [fl 1; fl 1; fl 1] [fl 3; fl 2; fl 5]) ex
           empty_world n self w Hrun).
Defined.

Lemma run_final_checkpoint_witness :
  let ex := example_trainer [fl 1; fl 1; fl 1] [fl 3; fl 2; fl 5] 3 in
  ∃ n self w, run ex empty_world = Ok (n, (self, w)) ∧
    disk w !! final_path "./" = Some n ∧ net_ self = n ∧
    final_path "./" ≠ best_path "./" ∧
    (∀ p, p ≠ best_path "./" → p ≠ final_path "./" →
          disk w !! p = (∅ : gmap string nat) !! p).
Proof.
  intros ex.
  assert (is_ok (run ex empty_world) = true) as Hok
    by (vm_compute; reflexivity).
  destruct (run ex empty_world) as [[n [self w]]|] eqn:Hrun; [|discriminate].
  exists n, self, w. split; [reflexivity|].
  exact (run_final_checkpoint
           (H := scripted [fl 1; fl 1; fl 1] [fl 3; fl 2; fl 5]) ex
           empty_world n self w Hrun).
Defined.

Lemma run_console_witness :
  let ex :=
    NetTrain (H := scripted [fl 1; fl 1; fl 1; fl 1] [fl 3; fl 2; fl 5; fl 4])
      0 DiceLoss [0; 0; 0; 0] [0; 0; 0; 0]
      (BList [[0; 1]]) (BList [[mask01; mask01]])
      (BList [[2; 3]]) (BList [[mask01; mask01]])
      1 2 4 2 "./" true [] [] in
  ∃ n self w, run ex empty_world = Ok (n, (self, w)) ∧
    ∃ lines,
      console w = [] ++ lines ∧
      kind_of <$> lines
      = [Progress 1; Progress 2; Progress 4] ++ [Evaluation]
        ++ [Plot (train_loss self) (test_loss self)].
Proof.
  intros ex.
  assert (is_ok (run ex empty_world) = true) as Hok
    by (vm_compute; reflexivity).
  destruct (run ex empty_world) as [[n [self w]]|] eqn:Hrun; [|discriminate].
  exists n, self, w. split; [reflexivity|].
  exact (run_console
           (H := scripted [fl 1; fl 1; fl 1; fl 1] [fl 3; fl 2; fl 5; fl 4])
           ex empty_world n self w Hrun).
Defined.

Lemma cycle_zero_division `{Backend} (e : nat) (self : net_train) (w : world) :
  0 < e → print_loss self = 0 → cycle_ok self e = true →
  cycle e (self, w) = Raise ZeroDivisionError.
Proof.
  unfold cycle_ok, cycle. intros He Hp Hok.
  destruct (batch_idx_train self !! e) as [a|] eqn:Ea; [|discriminate].
  destruct (batch_idx_test self !! e) as [b|] eqn:Eb; [|discriminate].
  apply andb_true_iff in Hok as [Htr Hte].
  rewrite (index_lookup _ _ _ Ea). cbn [mbind result_bind].
  pose proof (dataloader_ok self _ _ _ Htr) as Hd1.
  destruct (dataloader self (images_all self) (labels_all self) a)
    as [[images labels]|]; [|discriminate]. cbn [mbind result_bind].
  unfold train_step. destruct (train_pass _ _ _ _) as [n tr].
  set (s1 := append_train_loss (set_net self n) tr).
  change (batch_idx_test s1) with (batch_idx_test self).
  rewrite (index_lookup _ _ _ Eb). cbn [mbind result_bind].
  pose proof (dataloader_ok s1 _ _ _ Hte) as Hd2.
  change (images_test_all s1) with (images_test_all self).
  change (labels_test_all s1) with (labels_test_all self).
  destruct (dataloader s1 _ _ b) as [[images_ labels_]|]; [|discriminate].
  cbn [mbind result_bind].
  set (te := test_step s1 images_ labels_).
  set (s2 := append_test_loss s1 te).
  unfold prints_at. change (print_loss s2) with (print_loss self).
  rewrite Hp. destruct e; [lia|]. reflexivity.
Qed.

(** X12: With [print_loss = 0] a run of two or more cycles stops in the second
    cycle with [ZeroDivisionError] (the first cycle prints without using
    [print_loss]); nothing is returned. *)
Theorem run_print_loss_zero `{Backend} (self0 : net_train) (w0 : world) :
  print_loss self0 = 0 → 2 ≤ training_cycles self0 →
  cycle_ok self0 0 = true → cycle_ok self0 1 = true →
  run self0 w0 = Raise ZeroDivisionError.
Proof.
  intros Hp Hc H0 H1. unfold run.
  destruct (training_cycles self0) as [|[|k]] eqn:Ek; [lia|lia|].
  change (seq 0 (S (S k))) with (0 :: 1 :: seq 2 k).
  cbn [for_each].
  pose proof (cycle_total 0 self0 w0 H0 (or_introl eq_refl)
                (or_introl eq_refl)) as Hok.
  destruct (cycle 0 (self0, w0)) as [[self1 w1]|] eqn:E0; [|discriminate].
  cbn [mbind result_bind].
  apply cycle_effects in E0 as (n & tr & te & -> & _).
  rewrite cycle_zero_division; [reflexivity|lia|exact Hp|exact H1].
Qed.

Lemma run_print_loss_zero_witness :
  run (NetTrain (H := scripted [] []) 0 DiceLoss [0; 0] [0; 0]
         (BList [[0; 1]]) (BList [[mask01; mask01]])
         (BList [[2; 3]]) (BList [[mask01; mask01]])
         1 2 2 0 "./" false [] []) empty_world
  = Raise ZeroDivisionError.
Proof.
  apply (run_print_loss_zero (H := scripted [] [])); [reflexivity|simpl; lia|
    reflexivity|reflexivity].
Defined.

Lemma getitem_empty {A : Type} (d : batches A) (k : nat) :
  py_len d = 0 → is_ok (getitem d k) = false.
Proof.
  destruct d as [l|m]; simpl; intros Hlen.
  - destruct l; [reflexivity|discriminate].
  - apply map_size_empty_iff in Hlen. rewrite Hlen, lookup_empty. reflexivity.
Qed.

Lemma cycle_empty_test_set `{Backend} (e : nat) (self : net_train)
    (w : world) :
  py_len (images_test_all self) = 0 → is_ok (cycle e (self, w)) = false.
Proof.
  intros Hlen. unfold cycle.
  destruct (index (batch_idx_train self) e) as [bn|]; [|reflexivity].
  cbn [mbind result_bind].
  destruct (dataloader self _ _ bn) as [[images labels]|]; [|reflexivity].
  cbn [mbind result_bind].
  unfold train_step. destruct (train_pass _ _ _ _) as [n tr].
  set (s1 := append_train_loss (set_net self n) tr).
  destruct (index (batch_idx_test s1) e) as [bn_|]; [|reflexivity].
  cbn [mbind result_bind].
  change (images_test_all s1) with (images_test_all self).
  unfold dataloader at 1.
  pose proof (getitem_empty (images_test_all self) bn_ Hlen) as Hg.
  destruct (getitem (images_test_all self) bn_); [discriminate|reflexivity].
Qed.

(** X13: On an empty test set no run completes: the first cycle fails when it
    loads a test batch, and a run of zero cycles fails with
    [ZeroDivisionError] when it averages the final evaluation. *)
Theorem run_empty_test_set `{Backend} (self0 : net_train) (w0 : world) :
  py_len (images_test_all self0) = 0 →
  is_ok (run self0 w0) = false ∧
  (training_cycles self0 = 0 → run self0 w0 = Raise ZeroDivisionError).
Proof.
  intros Hlen. split.
  - unfold run. destruct (training_cycles self0) as [|k].
    + simpl. rewrite Hlen. reflexivity.
    + change (seq 0 (S k)) with (0 :: seq 1 k). cbn [for_each].
      pose proof (cycle_empty_test_set 0 self0 w0 Hlen) as Hc.
      destruct (cycle 0 (self0, w0)); [discriminate|reflexivity].
  - intros Hc. unfold run. rewrite Hc. simpl. rewrite Hlen. reflexivity.
Qed.

Lemma run_empty_test_set_witness :
  let self := NetTrain (H := scripted [] []) 0 DiceLoss [] []
                (BList [[0; 1]]) (BList [[mask01; mask01]])
                (BList []) (BList []) 1 2 0 100 "./" false [] [] in
  is_ok (run self empty_world) = false ∧
  (0 = 0 → run self empty_world = Raise ZeroDivisionError).
Proof.
  intros self.
  apply (run_empty_test_set (H := scripted [] []) self empty_world).
  reflexivity.
Defined.

(** The state the loop reaches after [S b] cycles holds, in its network,
    what the "best" file holds when [b] is the last improving cycle. *)
Lemma loop_best_file `{Backend} (self0 : net_train) (w0 : world) (k : nat)
    (self : net_train) (w : world) :
  test_loss self0 = [] →
  for_each cycle (seq 0 k) (self0, w0) = Ok (self, w) →
  match best_log (test_loss self) k with
  | b :: _ =>
      ∃ self_b w_b,
        for_each cycle (seq 0 (S b)) (self0, w0) = Ok (self_b, w_b) ∧
        disk w !! best_path (savedir self0) = Some (net_ self_b)
  | [] => True
  end.
Proof.
  intros HL0. revert self w. induction k as [|k IH]; intros self w Hrun;
    [exact I|].
  pose proof Hrun as Hrun'.
  rewrite seq_S, for_each_app in Hrun. simpl in Hrun.
  destruct (for_each cycle (seq 0 k) (self0, w0)) as [[self1 w1]|] eqn:E1;
    [|discriminate].
  cbn [mbind result_bind] in Hrun.
  destruct (cycle k (self1, w1)) as [[self2 w2]|] eqn:E2; [|discriminate].
  cbn [mbind result_bind] in Hrun. injection Hrun as <- <-.
  specialize (IH _ _ eq_refl).
  pose proof E1 as Hspec.
  apply loop_spec in Hspec as (n1 & TR & TE & -> & HTR & HTE & _);
    [|exact HL0].
  simpl in IH. rewrite HL0 in IH. simpl in IH.
  apply cycle_spec in E2 as (n & tr & te & -> & Hd2 & _);
    [|simpl; rewrite HL0; exact HTE].
  simpl in Hd2. rewrite HL0 in Hd2. simpl in Hd2.
  simpl. rewrite HL0. simpl.
  rewrite (best_log_app TE [te] k) by lia.
  destruct (improves (TE ++ [te]) k).
  - eexists _, _. split; [exact Hrun'|]. rewrite Hd2. simpl.
    apply lookup_insert_eq.
  - rewrite Hd2. exact IH.
Qed.

(** X14: The "best" file holds the network as it was right after the last
    improving cycle [b] (after the optimiser step of that cycle), not the
    network at the end of the run: running [b + 1] cycles from the same
    start reaches that network. *)
Theorem best_checkpoint_content `{Backend} (self0 : net_train) (w0 : world)
    (n : net) (self : net_train) (w : world) (b : nat) (rest : list nat) :
  test_loss self0 = [] → best_epochs w0 = [] →
  run self0 w0 = Ok (n, (self, w)) →
  best_epochs w = b :: rest →
  b < training_cycles self0 ∧
  ∃ self_b w_b,
    for_each cycle (seq 0 (S b)) (self0, w0) = Ok (self_b, w_b) ∧
    disk w !! best_path (savedir self0) = Some (net_ self_b).
Proof.
  intros HL0 HB0 Hrun Hbest.
  pose proof Hrun as Hspec.
  apply run_spec in Hspec as (TR & TE & -> & _ & HTE & Hb & _); [|exact HL0].
  rewrite HB0, app_nil_r, Hbest in Hb.
  split.
  { assert (b ∈ best_log TE (training_cycles self0)) as Hin
      by (rewrite <- Hb; left).
    apply elem_of_best_log in Hin as [Hlt _]. exact Hlt. }
  unfold run in Hrun.
  step Hrun as [self1 w1] eqn Eloop.
  pose proof (loop_best_file _ _ _ _ _ HL0 Eloop) as Hfile.
  pose proof Eloop as Hl.
  apply loop_spec in Hl as (n1 & TR1 & TE1 & -> & _ & _ & _); [|exact HL0].
  step Hrun as acc eqn Eacc. step Hrun as u eqn Eu.
  injection Hrun as Hn _ _ Hte Hw. subst w.
  rewrite HL0 in Hte. simpl in Hte. subst TE1.
  change (test_loss (evolve self0 n1 TR1 TE)) with (test_loss self0 ++ TE)
    in Hfile.
  rewrite HL0 in Hfile. change ([] ++ TE) with TE in Hfile.
  rewrite <- Hb in Hfile.
  destruct Hfile as (self_b & w_b & Hfe & Hdisk).
  exists self_b, w_b. split; [exact Hfe|].
  pose proof (best_final_distinct (savedir self0)) as Hdist.
  destruct (plot_training_history self0); simpl;
    rewrite lookup_insert_ne by done; exact Hdisk.
Qed.

Lemma best_checkpoint_content_witness :
  let ex := example_trainer [fl 1; fl 1; fl 1] [fl 3; fl 2; fl 5] 3 in
  ∃ n self w, run ex empty_world = Ok (n, (self, w)) ∧
    best_epochs w = [1] ∧ 1 < 3 ∧
    ∃ self_b w_b,
      for_each cycle (seq 0 2) (ex, empty_world) = Ok (self_b, w_b) ∧
      disk w !! best_path "./" = Some (net_ self_b).
Proof.
  intros ex.
  assert (is_ok (run ex empty_world) = true) as Hok
    by (vm_compute; reflexivity).
  destruct (run ex empty_world) as [[n [self w]]|] eqn:Hrun; [|discriminate].
  assert (best_epochs w = [1]) as Hbest.
  { assert (match run ex empty_world with
            | Ok (_, (_, w')) => best_epochs w' = [1]
            | Raise _ => False
            end) as Hm by (vm_compute; reflexivity).
    rewrite Hrun in Hm. exact Hm. }
  exists n, self, w. split; [reflexivity|]. split; [exact Hbest|].
  exact (best_checkpoint_content
           (H := scripted [fl 1; fl 1; fl 1] [fl 3; fl 2; fl 5]) ex
           empty_world n self w 1 [] eq_refl eq_refl Hrun Hbest).
Defined.

(** * Further properties of the inference run *)

(** X15: The per-image path returns one entry per input image, of the spatial
    size of the images and with [nb_classes] channels, whatever the model
    returns; the one-batch path returns the shape of the model's answer,
    channels last.  The report counts the returned maps. *)
Theorem predict_run_shape `{Predictor} (self : net_predict)
    (lg lg' : predict_log) (imgs dec : tensor4) :
  predict_run self lg = Ok ((imgs, dec), lg') →
  let t := image_data self in
  reported lg' = reported lg ++ [dim0 dec] ∧
  (tiling_policy t = PerImage →
     shape dec = (dim0 t, dim2 t, dim3 t, nb_classes self)) ∧
  (tiling_policy t = WholeStack →
     let out := forward (the_model self) t in
     shape dec = (dim0 out, dim2 out, dim3 out, dim1 out)).
Proof.
  intros Hrun. cbv zeta. unfold predict_run in Hrun.
  set (t := image_data self) in *.
  destruct (tiling_policy t) eqn:Hp.
  - cbn [mbind result_bind] in Hrun.
    pose proof (predict_shape self t lg) as Hs.
    pose proof (predict_calls self t lg) as [_ Hr].
    destruct (predict self t lg) as [d l] eqn:Epr.
    simpl in Hrun, Hr. injection Hrun as <- <- <-. simpl. rewrite Hr.
    split; [reflexivity|]. split; [discriminate|]. intros _. exact Hs.
  - destruct (predict_each self _ _ lg) as [[d l]|] eqn:Ee; [|discriminate].
    simpl in Hrun. injection Hrun as <- <- <-. simpl.
    apply predict_each_calls in Ee as (_ & Hr & Hs).
    + rewrite Hr. split; [reflexivity|]. split; [|discriminate].
      intros _. exact Hs.
    + intros i Hi. apply elem_of_seq in Hi. fold t. lia.
Qed.

Lemma predict_run_shape_witness :
  ∃ imgs dec lg',
    predict_run long_stack (PredictLog [] []) = Ok ((imgs, dec), lg') ∧
    reported lg' = [] ++ [dim0 dec] ∧
    (tiling_policy (image_data long_stack) = PerImage →
       shape dec = (25, 2, 2, 1)).
Proof.
  assert (is_ok (predict_run long_stack (PredictLog [] [])) = true) as Hok
    by (vm_compute; reflexivity).
  destruct (predict_run long_stack (PredictLog [] []))
    as [[[imgs dec] lg']|] eqn:Hrun; [|discriminate].
  exists imgs, dec, lg'. split; [reflexivity|].
  destruct (predict_run_shape (H := identity_model) long_stack
              (PredictLog [] []) lg' imgs dec Hrun) as (Hr & Hper & _).
  split; [exact Hr|exact Hper].
Defined.

Lemma setitem_unfit (dst v : tensor4) (i : nat) :
  i < dim0 dst →
  (dim0 v =? 1) && fits (dim1 v) (dim1 dst) && fits (dim2 v) (dim2 dst)
  && fits (dim3 v) (dim3 dst) = false →
  setitem dst i v = Raise (ValueError "could not broadcast input array").
Proof.
  intros Hi Hfit. unfold setitem. apply Nat.ltb_lt in Hi.
  rewrite Hi, Hfit. reflexivity.
Qed.

Lemma predict_dims `{Predictor} (self : net_predict) (t : tensor4)
    (lg : predict_log) :
  let v := (predict self t lg).1 in
  let out := forward (the_model self) t in
  dim0 v = dim0 out ∧ dim1 v = dim2 out ∧ dim2 v = dim3 out ∧
  dim3 v = dim1 out.
Proof.
  intros v out. pose proof (predict_shape self t lg) as Hs. fold v out in Hs.
  repeat split.
  - unfold dim0 at 1. rewrite Hs. reflexivity.
  - unfold dim1 at 1. rewrite Hs. reflexivity.
  - unfold dim2 at 1. rewrite Hs. reflexivity.
  - unfold dim3 at 1. rewrite Hs. reflexivity.
Qed.

(** X16: On the per-image path, a model whose answer for the first image is not
    one entry with, on each axis, the size of the images (resp.
    [nb_classes] channels) or size 1, makes the run fail with
    [ValueError]. *)
Theorem predict_run_broadcast_error `{Predictor} (self : net_predict)
    (lg : predict_log) :
  let t := image_data self in
  let out := forward (the_model self) (slice1 t 0) in
  tiling_policy t = PerImage → 0 < dim0 t →
  (dim0 out =? 1) && fits (dim2 out) (dim2 t) && fits (dim3 out) (dim3 t)
  && fits (dim1 out) (nb_classes self) = false →
  predict_run self lg = Raise (ValueError "could not broadcast input array").
Proof.
  intros t out Hp Hn Hfit. unfold predict_run. fold t. rewrite Hp.
  destruct (dim0 t) as [|n] eqn:En; [lia|].
  change (seq 0 (S n)) with (0 :: seq 1 n). rewrite predict_each_cons.
  fold t.
  rewrite setitem_unfit; [reflexivity|unfold dim0; simpl; lia|].
  destruct (predict_dims self (slice1 t 0) lg) as (-> & -> & -> & ->).
  exact Hfit.
Qed.

Lemma predict_run_broadcast_error_witness :
  predict_run (H := two_maps)
    (NetPredict (H := two_maps) 3 tt (ramp 20 1 1) false) (PredictLog [] [])
  = Raise (ValueError "could not broadcast input array").
Proof.
  apply (predict_run_broadcast_error (H := two_maps)).
  - vm_compute. reflexivity.
  - vm_compute. lia.
  - vm_compute. reflexivity.
Defined.

(** X17: An empty stack of large images never reaches the model: the run returns
    an empty array of maps and reports 0 images. *)
Theorem predict_run_empty_stack `{Predictor} (self : net_predict)
    (lg : predict_log) :
  dim0 (image_data self) = 0 →
  tiling_policy (image_data self) = PerImage →
  predict_run self lg
  = Ok ((permute_0231 (image_data self),
         np_zeros (0, dim2 (image_data self), dim3 (image_data self),
                   nb_classes self)),
        PredictLog (forward_calls lg) (reported lg ++ [0])).
Proof.
  intros Hn Hp. unfold predict_run. rewrite Hp, Hn. reflexivity.
Qed.

Lemma predict_run_empty_stack_witness :
  let self := NetPredict (H := first_only) 2 tt
                (Tensor4 (0, 1, 512, 512) (λ _ _ _ _, S754_zero false))
                false in
  predict_run self (PredictLog [7] [])
  = Ok ((permute_0231 (image_data self), np_zeros (0, 512, 512, 2)),
        PredictLog [7] [0]).
Proof.
  intros self.
  apply (predict_run_empty_stack (H := first_only) self (PredictLog [7] []));
    reflexivity.
Defined.

(** * [decode]: the cached prediction strategy *)

(** X18: A successful [decode] leaves the model in correlated mode with a
    prediction strategy in place.  A model that already had one is handed
    back as it was; a model without one is handed back with the posterior
    that line 170 computes on the first training input.  So the posterior
    is computed at most once: whenever a later [decode] succeeds, on
    whatever latent points, it keeps the state.  (Of the model, the state
    followed here is the mode flag and the Gaussian process with its
    cached strategy; whether a later call succeeds depends on its input
    and is not claimed.) *)
Theorem decode_populates_once `{GPLayer} (self self' : dklGPR)
    (z_emb : gp_tensor) (r : gp_tensor * gp_tensor) :
  decode self z_emb = Ok (r, self') →
  correlated_output self' = true ∧
  is_Some (prediction_strategy (the_gp_model self')) ∧
  (is_Some (prediction_strategy (the_gp_model self)) → self' = self) ∧
  (prediction_strategy (the_gp_model self) = None →
   the_gp_model self'
   = compute_posterior (the_gp_model self)
       (first_row (train_inputs0 (the_gp_model self)))) ∧
  (∀ z' r' self'', decode self' z' = Ok (r', self'') → self'' = self').
Proof.
  unfold decode. destruct self as [c m]. simpl.
  destruct c; [simpl|discriminate].
  set (m1 := match prediction_strategy m with
             | None => compute_posterior m (first_row (train_inputs0 m))
             | Some _ => m
             end).
  destruct (prediction_strategy m1) as [s|] eqn:Es; [|discriminate].
  destruct (exact_prediction s _ _) as [pmean pcovar].
  intros [= <- <-]. simpl. rewrite Es.
  split; [reflexivity|]. split; [eauto|]. split; [|split].
  - intros [s0 Hs0]. unfold m1. rewrite Hs0. reflexivity.
  - intros Hnone. unfold m1. rewrite Hnone. reflexivity.
  - intros z' r' self''. unfold decode. simpl. rewrite Es.
    match goal with
    | |- context [exact_prediction ?a ?b ?c] =>
        destruct (exact_prediction a b c) as [pm pc]
    end.
    intros [= _ <-]. reflexivity.
Qed.

Lemma decode_populates_once_witness :
  ∃ r self',
    decode (H := lazy_gp) (DklGPR (H := lazy_gp) true false) [1; 2]
    = Ok (r, self') ∧
    correlated_output self' = true ∧
    is_Some (prediction_strategy (the_gp_model self')) ∧
    (is_Some (prediction_strategy (GPLayer := lazy_gp) false) →
     self' = DklGPR (H := lazy_gp) true false) ∧
    (prediction_strategy (GPLayer := lazy_gp) false = None →
     the_gp_model self' = true) ∧
    (∀ z' r' self'', decode self' z' = Ok (r', self'') → self'' = self').
Proof.
  eexists _, _. split; [reflexivity|].
  exact (decode_populates_once (H := lazy_gp)
           (DklGPR (H := lazy_gp) true false) _ [1; 2] _ eq_refl).
Defined.

(** * [seg_augmentor] *)

Lemma foldl_pick_lookup `{Transforms} (kwargs : gmap string kwarg)
    (l : list string) (d : gmap string kwarg) (k : string) :
  foldl (pick_kwarg kwargs) d l !! k
  = if bool_decide (k ∈ l)
    then match kwargs !! k with Some v => Some v | None => d !! k end
    else d !! k.
Proof.
  revert d. induction l as [|x l IH]; intros d.
  - rewrite bool_decide_eq_false_2 by apply not_elem_of_nil. reflexivity.
  - simpl. rewrite IH.
    assert (pick_kwarg kwargs d x !! k
            = if bool_decide (k = x)
              then match kwargs !! k with Some v => Some v | None => d !! k end
              else d !! k) as Hpick.
    { unfold pick_kwarg. destruct (decide (k = x)) as [->|Hne].
      - rewrite bool_decide_eq_true_2 by done.
        destruct (kwargs !! x); [apply lookup_insert_eq|reflexivity].
      - rewrite bool_decide_eq_false_2 by done.
        destruct (kwargs !! x); [|reflexivity].
        apply lookup_insert_ne. congruence. }
    rewrite Hpick.
    destruct (decide (k = x)) as [->|Hne].
    + rewrite (bool_decide_eq_true_2 (x = x)) by done.
      rewrite (bool_decide_eq_true_2 (x ∈ x :: l)) by left.
      destruct (bool_decide (x ∈ l)); destruct (kwargs !! x); reflexivity.
    + rewrite (bool_decide_eq_false_2 (k = x)) by done.
      destruct (decide (k ∈ l)) as [Hin|Hnin].
      * rewrite !bool_decide_eq_true_2; [reflexivity|by right|done].
      * rewrite !bool_decide_eq_false_2; [reflexivity| |done].
        intros [?|?]%elem_of_cons; done.
Qed.

Lemma build_augdict_lookup `{Transforms} (kwargs : gmap string kwarg)
    (k : string) :
  build_augdict kwargs !! k
  = if bool_decide (k ∈ auglist) then kwargs !! k else None.
Proof.
  unfold build_augdict. rewrite foldl_pick_lookup, lookup_empty.
  destruct (bool_decide _); [|reflexivity].
  destruct (kwargs !! k); reflexivity.
Qed.

(** X19: No augmentation function is built exactly when none of the eleven
    recognised options is among the keyword arguments; other keywords
    (misspelt ones included) do not count. *)
Theorem seg_augmentor_none_iff `{Transforms} (nb_classes : nat)
    (kwargs : gmap string kwarg) :
  seg_augmentor nb_classes kwargs = None
  ↔ ∀ k, k ∈ auglist → kwargs !! k = None.
Proof.
  unfold seg_augmentor.
  destruct (size (build_augdict kwargs) =? 0) eqn:E.
  - apply Nat.eqb_eq, map_size_empty_iff in E. split; [|done].
    intros _ k Hk.
    pose proof (build_augdict_lookup kwargs k) as Hl.
    rewrite E, lookup_empty, bool_decide_eq_true_2 in Hl by exact Hk. done.
  - split; [discriminate|]. intros Hnone. exfalso.
    apply Nat.eqb_neq in E. apply E, map_size_empty_iff, map_empty.
    intros k. rewrite build_augdict_lookup.
    destruct (decide (k ∈ auglist)) as [Hin|Hnin].
    + rewrite bool_decide_eq_true_2 by done. by apply Hnone.
    + rewrite bool_decide_eq_false_2 by done. reflexivity.
Qed.

Lemma seg_augmentor_none_iff_witness :
  seg_augmentor (H := plain_transforms) 1
    (<["gauss_nois" := 20]> (∅ : gmap string nat)) = None.
Proof.
  apply (seg_augmentor_none_iff (H := plain_transforms)).
  intros k Hk. unfold auglist in Hk.
  repeat (apply elem_of_cons in Hk as [->|Hk]; [vm_compute; reflexivity|]).
  by apply elem_of_nil in Hk.
Defined.

(** X20: The augmentation function that is built holds the number of classes it
    was asked for and exactly the recognised options that were passed, with
    their values: every other keyword is left out. *)
Theorem seg_augmentor_options `{Transforms} (nb_classes : nat)
    (kwargs : gmap string kwarg) (a : augmentor) :
  seg_augmentor nb_classes kwargs = Some a →
  aug_nb_classes a = nb_classes ∧
  (∀ k, aug_dict a !! k
        = if bool_decide (k ∈ auglist) then kwargs !! k else None) ∧
  (∃ k, k ∈ auglist ∧ is_Some (kwargs !! k)).
Proof.
  unfold seg_augmentor.
  destruct (size (build_augdict kwargs) =? 0) eqn:E; [discriminate|].
  intros [= <-]. simpl. split; [reflexivity|].
  split; [apply build_augdict_lookup|].
  apply Nat.eqb_neq in E.
  destruct (map_choose (build_augdict kwargs)) as (k & v & Hkv).
  { intros Hemp. apply E. rewrite Hemp. apply map_size_empty. }
  rewrite build_augdict_lookup in Hkv.
  destruct (decide (k ∈ auglist)) as [Hin|Hnin].
  - rewrite bool_decide_eq_true_2 in Hkv by done. eauto.
  - rewrite bool_decide_eq_false_2 in Hkv by done. discriminate.
Qed.

Lemma seg_augmentor_options_witness :
  ∃ a, seg_augmentor (H := plain_transforms) 3 example_kwargs = Some a ∧
    aug_nb_classes a = 3 ∧
    (∀ k, aug_dict a !! k
          = if bool_decide (k ∈ auglist) then example_kwargs !! k else None) ∧
    (∃ k, k ∈ auglist ∧ is_Some (example_kwargs !! k)).
Proof.
  assert (is_Some (seg_augmentor (H := plain_transforms) 3 example_kwargs))
    as [a Ha] by (vm_compute; eauto).
  exists a. split; [exact Ha|].
  exact (seg_augmentor_options (H := plain_transforms) 3 example_kwargs a Ha).
Defined.

(** * [Segmentor]: the cached downsampling factor *)

(** X21: The downsampling factor is computed by the first [predict] and kept:
    after [load_weights] replaced the network, [predict] still passes the
    factor that was computed (or set) before, together with the new
    network, and GPU use is requested exactly for the device name "cuda". *)
Theorem predict_after_load_weights `{SegBackend} (self s2 : Segmentor)
    (x : seg_images) (r l : bool) (k : seg_kwargs) (path : string) :
  load_weights (seg_predict self x r l k).2 path = Ok s2 →
  let factor := match downsample_factor self with
                | None => get_downsample_factor (seg_the_net self)
                | Some f => f
                end in
  downsample_factor s2 = Some factor ∧
  ∀ x' r' l' k',
    seg_predict s2 x' r' l' k'
    = (seg_predictor_run (seg_the_net s2) r'
         (String.eqb (seg_device self) "cuda") l' (seg_nb_classes self)
         factor k' x', s2).
Proof.
  unfold load_weights, seg_predict. simpl. intros Hl.
  destruct (torch_load path (seg_device self)) as [wd|]; [|discriminate].
  simpl in Hl.
  destruct (load_state_dict (seg_the_net self) wd) as [n|]; [|discriminate].
  simpl in Hl. injection Hl as <-. simpl. split; reflexivity.
Qed.

Lemma predict_after_load_weights_witness :
  let self := MkSegmentor (H := counting_seg) 4 1 "cuda" None in
  ∃ s2, load_weights (seg_predict self 0 false true tt).2 "w.pt" = Ok s2 ∧
    downsample_factor s2 = Some 4 ∧
    ∀ x' r' l' k',
      seg_predict s2 x' r' l' k'
      = (seg_predictor_run (seg_the_net s2) r' true l' 1 4 k' x', s2).
Proof.
  intros self. eexists. split; [reflexivity|].
  exact (predict_after_load_weights (H := counting_seg) self _ 0 false true
           tt "w.pt" eq_refl).
Defined.

(** * Dictionaries of batches *)

Lemma for_each_raises {S : Type} (body : nat → S → result S)
    (xs : list nat) (s : S) (i : nat) :
  i ∈ xs → (∀ s', is_ok (body i s') = false) →
  is_ok (for_each body xs s) = false.
Proof.
  intros Hin Hbad. revert s.
  induction xs as [|x xs IH]; intros s; [by apply elem_of_nil in Hin|].
  simpl. destruct (decide (x = i)) as [->|Hne].
  - specialize (Hbad s). destruct (body i s); [discriminate|reflexivity].
  - destruct (body x s) as [s1|]; [|reflexivity].
    apply IH. apply elem_of_cons in Hin as [->|Hin]; [done|exact Hin].
Qed.

(** X22: Batches are fetched by position: a dictionary of test batches must have
    the keys [0 .. len - 1].  When one of these keys is missing no run
    completes, since the final evaluation asks for every position. *)
Theorem run_dict_keys `{Backend} (self0 : net_train) (w0 : world)
    (m : gmap nat (list image)) (i : nat) :
  images_test_all self0 = BDict m → i < size m → m !! i = None →
  is_ok (run self0 w0) = false.
Proof.
  intros Hm Hi Hnone. unfold run.
  destruct (for_each cycle _ (self0, w0)) as [[self1 w1]|] eqn:Eloop;
    [|reflexivity].
  cbn [mbind result_bind].
  apply loop_effects in Eloop as (n1 & TR & TE & -> & _).
  change (images_test_all (evolve self0 n1 TR TE))
    with (images_test_all self0).
  rewrite Hm. simpl py_len.
  pose proof (for_each_raises (eval_pass (evolve self0 n1 TR TE))
                (seq 0 (size m)) (S754_zero false) i) as Hbad.
  destruct (for_each (eval_pass _) _ _); [|reflexivity].
  exfalso. assert (is_ok (Ok a : result float) = false) as Habs; [|done].
  apply Hbad.
  - apply elem_of_seq. lia.
  - intros acc. unfold eval_pass, dataloader.
    change (images_test_all (evolve self0 n1 TR TE))
      with (images_test_all self0).
    rewrite Hm. simpl. rewrite Hnone. reflexivity.
Qed.

Lemma run_dict_keys_witness :
  is_ok (run (NetTrain (H := scripted [] []) 0 DiceLoss [] []
                (BList [[0; 1]]) (BList [[mask01; mask01]])
                (BDict {[ 1 := [2; 3] ]}) (BDict {[ 1 := [mask01; mask01] ]})
                1 2 0 100 "./" false [] []) empty_world) = false.
Proof.
  apply (run_dict_keys (H := scripted [] []) _ empty_world
           {[ 1 := [2; 3] ]} 0); [reflexivity|vm_compute; lia|reflexivity].
Defined.
